(** * Storefront and catalog editor: a shallow embedding

    The repository holds two browser scripts: the shopper page
    ([src/js/shop.js]) and the catalog editor, which repeats the shopper
    page's state, filter and pagination code and adds the add / edit /
    delete handlers.  Both are modelled over one page value made of the
    object store, the script's [state] object, the part of the DOM the
    handlers read and write, and what is still to run: the timeout of the
    debounced search listener and the submit handlers that wait for a
    file to be re-encoded.  An event is one step; what a handler does
    behind an [await] is a step of its own. *)

From Stdlib Require Import ZArith QArith Qround Ascii String DecimalString DecimalPos Sorted Lia.
From stdpp Require Import base option list strings gmap.

Local Open Scope string_scope.
Local Open Scope list_scope.
Local Open Scope Z_scope.

(** ** Host functions

    The built-ins of the language that the scripts call.  Strings are
    sequences of code units below 256 (the Latin-1 range); on these the
    case mapping and the white-space class are the language's own, one
    code unit at a time. *)
Module Js.

(** The numbers the scripts compute with are integers (page numbers,
    counts, parsed identifiers, epoch milliseconds) or [NaN].  Integers
    are exact here; the scripts compute in doubles, which are exact up to
    [MAX_EXACT] only, so what is proved of parsed identifiers is proved
    below that bound. *)
Inductive number : Type :=
| NaN
| Num (z : Z).

Definition MAX_EXACT : Z := 2 ^ 53.

Definition sub (a b : number) : number :=
  match a, b with
  | Num x, Num y => Num (x - y)
  | _, _ => NaN
  end.

Definition add (a b : number) : number :=
  match a, b with
  | Num x, Num y => Num (x + y)
  | _, _ => NaN
  end.

(** Prices and amounts: a fraction or [NaN] (what [parseFloat] gives for
    text that is no number); rounding is not modelled. *)
Inductive float : Type :=
| FNaN
| Fin (q : Q).

Definition fadd (a b : float) : float :=
  match a, b with
  | Fin x, Fin y => Fin (x + y)
  | _, _ => FNaN
  end.

(** [String(n)] *)
Definition toString (n : number) : string :=
  match n with
  | NaN => "NaN"
  | Num z => NilZero.string_of_int (Z.to_int z)
  end.

Definition isWhiteSpace (c : ascii) : bool :=
  let n := N_of_ascii c in
  (N.leb 9 n && N.leb n 13) || N.eqb n 32 || N.eqb n 160.

Definition lowerChar (c : ascii) : ascii :=
  let n := N_of_ascii c in
  if (N.leb 65 n && N.leb n 90) || (N.leb 192 n && N.leb n 222 && negb (N.eqb n 215))
  then ascii_of_N (n + 32) else c.

(** [s.toLowerCase()] *)
Fixpoint toLowerCase (s : string) : string :=
  match s with
  | EmptyString => EmptyString
  | String c t => String (lowerChar c) (toLowerCase t)
  end.

(** [pat] occurs in [s] at position 0. *)
Fixpoint matchesAt (pat s : string) : bool :=
  match pat with
  | EmptyString => true
  | String a pat' =>
      match s with
      | EmptyString => false
      | String b s' => if Ascii.eqb a b then matchesAt pat' s' else false
      end
  end.

(** [s.includes(pat)] *)
Fixpoint includes (s pat : string) : bool :=
  matchesAt pat s ||
  match s with
  | EmptyString => false
  | String _ t => includes t pat
  end.

Fixpoint dropChars (n : nat) (s : string) : string :=
  match n, s with
  | S n', String _ t => dropChars n' t
  | _, _ => s
  end.

(** [s.slice(start)]: a negative [start] counts from the end. *)
Definition strSlice (start : Z) (s : string) : string :=
  let len := Z.of_nat (String.length s) in
  let k := if start <? 0 then Z.max (len + start) 0 else Z.min start len in
  dropChars (Z.to_nat k) s.

Fixpoint trimStart (s : string) : string :=
  match s with
  | EmptyString => EmptyString
  | String c t => if isWhiteSpace c then trimStart t else s
  end.

Fixpoint trimEnd (s : string) : string :=
  match s with
  | EmptyString => EmptyString
  | String c t =>
      match trimEnd t with
      | EmptyString => if isWhiteSpace c then EmptyString else String c EmptyString
      | t' => String c t'
      end
  end.

(** [s.trim()] *)
Definition trim (s : string) : string := trimEnd (trimStart s).

(** The first [n] code units of [pad] repeated for ever; [rest] is what
    is left of the copy being read. *)
Fixpoint filler (n : nat) (pad rest : string) : string :=
  match n with
  | O => EmptyString
  | S n' =>
      match rest with
      | String c r => String c (filler n' pad r)
      | EmptyString =>
          match pad with
          | String c r => String c (filler n' pad r)
          | EmptyString => EmptyString
          end
      end
  end.

(** [s.padStart(targetLength, padString)] *)
Definition padStart (targetLength : Z) (padString s : string) : string :=
  let len := Z.of_nat (String.length s) in
  if targetLength <=? len then s
  else filler (Z.to_nat (targetLength - len)) padString padString +:+ s.

(** [s.replace(/\s+/g, with_)]: every maximal run of white space becomes
    one copy of [with_]; [inRun] says the previous code unit was white. *)
Fixpoint replaceSpaceRuns (with_ : string) (inRun : bool) (s : string) : string :=
  match s with
  | EmptyString => EmptyString
  | String c t =>
      if isWhiteSpace c
      then (if inRun then replaceSpaceRuns with_ true t
            else with_ +:+ replaceSpaceRuns with_ true t)
      else String c (replaceSpaceRuns with_ false t)
  end.

Definition digitValue (c : ascii) : option Z :=
  let n := N_of_ascii c in
  if N.leb 48 n && N.leb n 57 then Some (Z.of_N n - 48)
  else if N.leb 97 n && N.leb n 122 then Some (Z.of_N n - 87)
  else if N.leb 65 n && N.leb n 90 then Some (Z.of_N n - 55)
  else None.

(** The value of the longest prefix of [s] made of digits of the radix;
    [None] when that prefix is empty. *)
Fixpoint parseDigits (radix acc : Z) (seen : bool) (s : string) : option Z :=
  let stop := if seen then Some acc else None in
  match s with
  | EmptyString => stop
  | String c t =>
      match digitValue c with
      | Some d => if d <? radix then parseDigits radix (acc * radix + d) true t else stop
      | None => stop
      end
  end.

(** [parseInt(s)] with no radix: leading white space, a sign, a [0x]
    prefix that switches to radix 16, then digits. *)
Definition parseInt (s : string) : number :=
  let s1 := trimStart s in
  let '(sign, s2) :=
    match s1 with
    | String "-" t => (-1, t)
    | String "+" t => (1, t)
    | _ => (1, s1)
    end in
  let '(radix, s3) :=
    match s2 with
    | String "0" (String "x" t) => (16, t)
    | String "0" (String "X" t) => (16, t)
    | _ => (10, s2)
    end in
  match parseDigits radix 0 false s3 with
  | Some n => Num (sign * n)
  | None => NaN
  end.

(** [Math.ceil(a / b)] and [Math.floor(a / b)] on integers: the quotient
    is the exact one, rounded afterwards. *)
Definition ceilDiv (a b : Z) : Z := Qceiling (inject_Z a / inject_Z b).
Definition floorDiv (a b : Z) : Z := Qfloor (inject_Z a / inject_Z b).

(** [arr.slice(start, end)] *)
Definition slice {A : Type} (start end_ : Z) (arr : list A) : list A :=
  let len := Z.of_nat (length arr) in
  let k := if start <? 0 then Z.max (len + start) 0 else Z.min start len in
  let final := if end_ <? 0 then Z.max (len + end_) 0 else Z.min end_ len in
  take (Z.to_nat (Z.max (final - k) 0)) (drop (Z.to_nat k) arr).

(** [arr.sort(cmp)]: the sort is stable, and a comparator result that
    is [NaN] counts as zero.  [keepsOrder v] says that a result [v] for
    [cmp(a, b)] leaves [a] in front of [b]. *)
Definition keepsOrder (v : number) : bool :=
  match v with
  | NaN => true
  | Num z => z <=? 0
  end.

Fixpoint insertBy {A : Type} (cmp : A -> A -> number) (x : A) (l : list A) : list A :=
  match l with
  | [] => [x]
  | y :: t => if keepsOrder (cmp x y) then x :: y :: t else y :: insertBy cmp x t
  end.

Definition sort {A : Type} (cmp : A -> A -> number) (arr : list A) : list A :=
  foldr (insertBy cmp) [] arr.

End Js.

(** ** Data model *)

(** A reference to an object of the store. *)
Definition loc : Type := nat.

(** A product record, with the fields of [data/products.json]. *)
Record product : Type := Product {
  id : string;
  name : string;
  species : string;
  price : Js.float;
  available : bool;
  image : option string;
  created_at : string
}.

#[global] Instance product_inhabited : Inhabited product :=
  populate (Product "" "" "" Js.FNaN false None "").

(** What [canvas.toBlob] hands to its callback: the file re-encoded as
    WebP, or null. *)
Inductive blob : Type :=
| WebP (file : string)
| Null.

(** The [state] object of the scripts; the editor's is the shopper's plus
    the last four fields. *)
Record state : Type := State {
  products : list loc;
  cart : list product;
  currentPage : Z;
  soldoutCount : Z;
  isLoading : bool;
  error : option string;
  editedProducts : list string;
  convertedImages : gmap string blob;
  editingProduct : option loc;
  deleteTarget : option loc
}.

(** What [createProductCard] puts into a card; [source] is the product
    object the card's listeners close over. *)
Record card : Type := Card {
  source : loc;
  imageSrc : string;
  alt : string;
  heading : string;
  speciesText : string;
  idText : string;
  priceText : Js.float;
  checkboxDisabled : bool;
  checkboxChecked : bool;
  soldOutBadge : bool
}.

Inductive panel : Type :=
| Hidden
| Shown (title message : string).

(** The part of the document behind [elements] that the scripts read or
    write: values, checked and disabled flags, rendered children. *)
Record elements : Type := Elements {
  productsContainer : list card;
  queryExceptionContainer : panel;
  cartCount : Z;
  totalAmount : Js.float;
  whatsappBtn : bool;            (* disabled *)
  searchInput : string;          (* value *)
  showSoldOutCheckbox : bool;    (* checked *)
  pageNumbersContainer : list Z; (* one button per number *)
  prevBtn : bool;                (* disabled *)
  nextBtn : bool;                (* disabled *)
  queryInfoElements : string;    (* textContent *)
  modal : bool;                  (* displayed *)
  modalTitle : string;
  productId : string;
  productName : string;
  productSpecies : string;
  productPrice : Js.float;       (* parseFloat of the value *)
  productAvailable : bool;
  productImage : option string;  (* files[0] *)
  deleteModal : bool;            (* displayed *)
  deleteProductName : string
}.

(** The local variables of a run of [productForm.onsubmit] that waits at
    [await convertImageToWebP(file, imageFileName)]. *)
Record submission : Type := Submission {
  sub_id : string;
  sub_name : string;
  sub_species : string;
  sub_price : Js.float;
  sub_available : bool;
  sub_file : string;
  sub_createdAt : string;
  sub_imageFileName : string
}.

(** A page: the objects allocated so far, addressed by position, the
    [state] object, the document, whether the timeout that
    [utils.debounce] keeps in [timer] is still to fire, and the submit
    handlers that wait for a re-encoding, oldest first. *)
Record page : Type := Page {
  heap : list product;
  st : state;
  els : elements;
  timer : bool;
  awaiting : list submission
}.

Definition ITEMS_PER_PAGE : Z := 4.
Definition MAX_VISIBLE_PAGES : Z := 5.
Definition PLACEHOLDER_IMAGE : string :=
  "https://images.unsplash.com/photo-1559496417-e7f25cb247f3?crop=entropy&cs=tinysrgb&fit=crop&fm=jpg&h=200&w=280&q=80".

(** *** Field updates *)
Module Upd.

Definition state_of (f : state -> state) (pg : page) : page :=
  Page (heap pg) (f (st pg)) (els pg) (timer pg) (awaiting pg).

Definition elements_of (f : elements -> elements) (pg : page) : page :=
  Page (heap pg) (st pg) (f (els pg)) (timer pg) (awaiting pg).

Definition heap_of (f : list product -> list product) (pg : page) : page :=
  Page (f (heap pg)) (st pg) (els pg) (timer pg) (awaiting pg).

Definition timer_ (v : bool) (pg : page) : page :=
  Page (heap pg) (st pg) (els pg) v (awaiting pg).

Definition awaiting_ (v : list submission) (pg : page) : page :=
  Page (heap pg) (st pg) (els pg) (timer pg) v.

Definition products_ (v : list loc) (s : state) : state :=
  State v (cart s) (currentPage s) (soldoutCount s) (isLoading s) (error s)
    (editedProducts s) (convertedImages s) (editingProduct s) (deleteTarget s).

Definition cart_ (v : list product) (s : state) : state :=
  State (products s) v (currentPage s) (soldoutCount s) (isLoading s) (error s)
    (editedProducts s) (convertedImages s) (editingProduct s) (deleteTarget s).

Definition currentPage_ (v : Z) (s : state) : state :=
  State (products s) (cart s) v (soldoutCount s) (isLoading s) (error s)
    (editedProducts s) (convertedImages s) (editingProduct s) (deleteTarget s).

Definition soldoutCount_ (v : Z) (s : state) : state :=
  State (products s) (cart s) (currentPage s) v (isLoading s) (error s)
    (editedProducts s) (convertedImages s) (editingProduct s) (deleteTarget s).

Definition isLoading_ (v : bool) (s : state) : state :=
  State (products s) (cart s) (currentPage s) (soldoutCount s) v (error s)
    (editedProducts s) (convertedImages s) (editingProduct s) (deleteTarget s).

Definition editedProducts_ (v : list string) (s : state) : state :=
  State (products s) (cart s) (currentPage s) (soldoutCount s) (isLoading s) (error s)
    v (convertedImages s) (editingProduct s) (deleteTarget s).

Definition convertedImages_ (v : gmap string blob) (s : state) : state :=
  State (products s) (cart s) (currentPage s) (soldoutCount s) (isLoading s) (error s)
    (editedProducts s) v (editingProduct s) (deleteTarget s).

Definition editingProduct_ (v : option loc) (s : state) : state :=
  State (products s) (cart s) (currentPage s) (soldoutCount s) (isLoading s) (error s)
    (editedProducts s) (convertedImages s) v (deleteTarget s).

Definition deleteTarget_ (v : option loc) (s : state) : state :=
  State (products s) (cart s) (currentPage s) (soldoutCount s) (isLoading s) (error s)
    (editedProducts s) (convertedImages s) (editingProduct s) v.

(** The product list area: cards and the exception panel. *)
Definition listing_ (cards : list card) (p : panel) (e : elements) : elements :=
  Elements cards p (cartCount e) (totalAmount e) (whatsappBtn e)
    (searchInput e) (showSoldOutCheckbox e) (pageNumbersContainer e) (prevBtn e)
    (nextBtn e) (queryInfoElements e) (modal e) (modalTitle e) (productId e)
    (productName e) (productSpecies e) (productPrice e) (productAvailable e)
    (productImage e) (deleteModal e) (deleteProductName e).

Definition cartBox_ (n : Z) (total : Js.float) (disabled : bool) (e : elements) : elements :=
  Elements (productsContainer e) (queryExceptionContainer e) n total disabled
    (searchInput e) (showSoldOutCheckbox e) (pageNumbersContainer e) (prevBtn e)
    (nextBtn e) (queryInfoElements e) (modal e) (modalTitle e) (productId e)
    (productName e) (productSpecies e) (productPrice e) (productAvailable e)
    (productImage e) (deleteModal e) (deleteProductName e).

Definition searchInput_ (v : string) (e : elements) : elements :=
  Elements (productsContainer e) (queryExceptionContainer e) (cartCount e)
    (totalAmount e) (whatsappBtn e) v (showSoldOutCheckbox e)
    (pageNumbersContainer e) (prevBtn e) (nextBtn e) (queryInfoElements e)
    (modal e) (modalTitle e) (productId e) (productName e) (productSpecies e)
    (productPrice e) (productAvailable e) (productImage e) (deleteModal e)
    (deleteProductName e).

Definition showSoldOutCheckbox_ (v : bool) (e : elements) : elements :=
  Elements (productsContainer e) (queryExceptionContainer e) (cartCount e)
    (totalAmount e) (whatsappBtn e) (searchInput e) v
    (pageNumbersContainer e) (prevBtn e) (nextBtn e) (queryInfoElements e)
    (modal e) (modalTitle e) (productId e) (productName e) (productSpecies e)
    (productPrice e) (productAvailable e) (productImage e) (deleteModal e)
    (deleteProductName e).

Definition pager_ (numbers : list Z) (prevOff nextOff : bool) (e : elements) : elements :=
  Elements (productsContainer e) (queryExceptionContainer e) (cartCount e)
    (totalAmount e) (whatsappBtn e) (searchInput e) (showSoldOutCheckbox e)
    numbers prevOff nextOff (queryInfoElements e)
    (modal e) (modalTitle e) (productId e) (productName e) (productSpecies e)
    (productPrice e) (productAvailable e) (productImage e) (deleteModal e)
    (deleteProductName e).

Definition queryInfoElements_ (v : string) (e : elements) : elements :=
  Elements (productsContainer e) (queryExceptionContainer e) (cartCount e)
    (totalAmount e) (whatsappBtn e) (searchInput e) (showSoldOutCheckbox e)
    (pageNumbersContainer e) (prevBtn e) (nextBtn e) v
    (modal e) (modalTitle e) (productId e) (productName e) (productSpecies e)
    (productPrice e) (productAvailable e) (productImage e) (deleteModal e)
    (deleteProductName e).

Definition queryExceptionContainer_ (v : panel) (e : elements) : elements :=
  listing_ (productsContainer e) v e.

Definition modals_ (form del : bool) (e : elements) : elements :=
  Elements (productsContainer e) (queryExceptionContainer e) (cartCount e)
    (totalAmount e) (whatsappBtn e) (searchInput e) (showSoldOutCheckbox e)
    (pageNumbersContainer e) (prevBtn e) (nextBtn e) (queryInfoElements e)
    form (modalTitle e) (productId e) (productName e) (productSpecies e)
    (productPrice e) (productAvailable e) (productImage e) del
    (deleteProductName e).

Definition modalTitle_ (v : string) (e : elements) : elements :=
  Elements (productsContainer e) (queryExceptionContainer e) (cartCount e)
    (totalAmount e) (whatsappBtn e) (searchInput e) (showSoldOutCheckbox e)
    (pageNumbersContainer e) (prevBtn e) (nextBtn e) (queryInfoElements e)
    (modal e) v (productId e) (productName e) (productSpecies e)
    (productPrice e) (productAvailable e) (productImage e) (deleteModal e)
    (deleteProductName e).

(** The six fields of the product form. *)
Definition form_ (i n s : string) (p : Js.float) (a : bool) (f : option string)
    (e : elements) : elements :=
  Elements (productsContainer e) (queryExceptionContainer e) (cartCount e)
    (totalAmount e) (whatsappBtn e) (searchInput e) (showSoldOutCheckbox e)
    (pageNumbersContainer e) (prevBtn e) (nextBtn e) (queryInfoElements e)
    (modal e) (modalTitle e) i n s p a f (deleteModal e) (deleteProductName e).

Definition deleteProductName_ (v : string) (e : elements) : elements :=
  Elements (productsContainer e) (queryExceptionContainer e) (cartCount e)
    (totalAmount e) (whatsappBtn e) (searchInput e) (showSoldOutCheckbox e)
    (pageNumbersContainer e) (prevBtn e) (nextBtn e) (queryInfoElements e)
    (modal e) (modalTitle e) (productId e) (productName e) (productSpecies e)
    (productPrice e) (productAvailable e) (productImage e) (deleteModal e) v.

End Upd.

(** ** The shopper page ([src/js/shop.js]) *)

(** Reading a reference. *)
Definition deref (pg : page) (l : loc) : product := heap pg !!! l.

(** [productManager.getFilteredProducts]; every call passes both
    arguments, so their defaults are not modelled. *)
Definition getFilteredProducts (keyword : string) (showSoldOut : bool) (pg : page)
    : list loc :=
  let lowerKeyword := Js.toLowerCase keyword in
  List.filter
    (fun l =>
       let product := deref pg l in
       let matches :=
         existsb (fun field => Js.includes (Js.toLowerCase field) lowerKeyword)
           [id product; name product; species product] in
       matches && (showSoldOut || available product))
    (products (st pg)).

(** [productManager.getPaginatedProducts] *)
Definition getPaginatedProducts {A : Type} (items : list A) (pg : page) : list A :=
  let start := (currentPage (st pg) - 1) * ITEMS_PER_PAGE in
  Js.slice start (start + ITEMS_PER_PAGE) items.

(** [cartView.updateCart] *)
Definition updateCart (pg : page) : page :=
  let items := cart (st pg) in
  let total := foldl (fun sum item => Js.fadd sum (price item)) (Js.Fin 0) items in
  Upd.elements_of
    (Upd.cartBox_ (Z.of_nat (length items)) total (Z.of_nat (length items) =? 0)) pg.

(** [productManager.toggleCartItem] *)
Definition toggleCartItem (productId : string) (isChecked : bool) (pg : page) : page :=
  match List.find (fun p => String.eqb (id (deref pg p)) productId) (products (st pg)) with
  | None => pg
  | Some p =>
      let product := deref pg p in
      let items := cart (st pg) in
      let pg1 :=
        if isChecked then
          if existsb (fun item => String.eqb (id item) productId) items then pg
          else Upd.state_of (Upd.cart_ (items ++ [product])) pg
        else
          Upd.state_of
            (Upd.cart_ (List.filter (fun item => negb (String.eqb (id item) productId)) items))
            pg in
      updateCart pg1
  end.

(** [paginationManager.getTotalPages] *)
Definition getTotalPages (totalItems : Z) : Z := Js.ceilDiv totalItems ITEMS_PER_PAGE.

Record range : Type := Range { start : Z; end_ : Z }.

(** [paginationManager.calculatePageRange] *)
Definition calculatePageRange (totalPages : Z) (pg : page) : range :=
  if totalPages <=? MAX_VISIBLE_PAGES then Range 1 totalPages
  else
    let half := Js.floorDiv MAX_VISIBLE_PAGES 2 in
    let start0 := Z.max 1 (currentPage (st pg) - half) in
    let end0 := Z.min totalPages (start0 + MAX_VISIBLE_PAGES - 1) in
    let start1 :=
      if end0 - start0 <? MAX_VISIBLE_PAGES - 1
      then Z.max 1 (end0 - MAX_VISIBLE_PAGES + 1) else start0 in
    Range start1 end0.

(** [paginationManager.render]: one button per [i] from [start] to [end]. *)
Definition render (totalItems : Z) (pg : page) : page :=
  let totalPages := getTotalPages totalItems in
  let cur := currentPage (st pg) in
  let r := calculatePageRange totalPages pg in
  Upd.elements_of
    (Upd.pager_ (seqZ (start r) (end_ r - start r + 1))
       (cur =? 1) ((cur =? totalPages) || (totalPages =? 0)))
    pg.

(** [productView.createProductCard] *)
Definition createProductCard (p : loc) (pg : page) : card :=
  let product := deref pg p in
  let isInCart := existsb (fun item => String.eqb (id item) (id product)) (cart (st pg)) in
  let src :=
    match image product with
    | Some (String c f) => "data/images/" +:+ String c f
    | _ => PLACEHOLDER_IMAGE
    end in
  Card p src (name product) (name product) (species product) (id product)
    (price product) (negb (available product)) isInCart (negb (available product)).

(** [productView.showError] *)
Definition showError (title message : string) (pg : page) : page :=
  Upd.elements_of (Upd.queryExceptionContainer_ (Shown title message))
    (Upd.elements_of (Upd.queryInfoElements_ "") pg).

(** [productView.showNoProducts] *)
Definition showNoProducts (pg : page) : page :=
  Upd.elements_of
    (Upd.queryExceptionContainer_
       (Shown "Plant not found" "Try other keyword or show sold out items."))
    (Upd.elements_of (Upd.queryInfoElements_ "") pg).

(** [productView.renderProducts] *)
Definition renderProducts (items : list loc) (pg : page) : page :=
  let pg1 := Upd.elements_of (Upd.listing_ [] Hidden) pg in
  if Z.of_nat (length items) =? 0 then showNoProducts pg1
  else
    Upd.elements_of
      (Upd.listing_ (map (fun p => createProductCard p pg1) items) Hidden) pg1.

(** [productView.updateFilterInfo] *)
Definition updateFilterInfo (visibleCount : Z) (pg : page) : page :=
  let hidden := if showSoldOutCheckbox (els pg) then 0 else soldoutCount (st pg) in
  let message :=
    "Page " +:+ Js.toString (Js.Num (currentPage (st pg))) +:+
    " | Showing " +:+ Js.toString (Js.Num visibleCount) +:+
    " of " +:+ Js.toString (Js.Num (Z.of_nat (length (products (st pg))) - hidden)) +:+
    " item(s)" in
  Upd.elements_of (Upd.queryInfoElements_ message) pg.

(** [productView.updateView] *)
Definition updateView (pg : page) : page :=
  let keyword := Js.trim (searchInput (els pg)) in
  let showSoldOut := showSoldOutCheckbox (els pg) in
  let filtered := getFilteredProducts keyword showSoldOut pg in
  let paginated := getPaginatedProducts filtered pg in
  let pg1 := renderProducts paginated pg in
  let pg2 := render (Z.of_nat (length filtered)) pg1 in
  updateFilterInfo (Z.of_nat (length filtered)) pg2.

(** [productService.fetchProducts]: [response] is the parsed body of a
    successful answer, [None] when the request or the parse fails.  The
    parsed records are new objects, put at the end of the store. *)
Definition fetchProducts (response : option (list product)) (pg : page)
    : page * option (list loc) :=
  let pg1 := Upd.state_of (Upd.isLoading_ true) pg in
  match response with
  | Some body =>
      (Upd.state_of (Upd.isLoading_ false) (Upd.heap_of (fun h => h ++ body) pg1),
       Some (seq (length (heap pg)) (length body)))
  | None => (Upd.state_of (Upd.isLoading_ false) pg1, None)
  end.

(** [productManager.initialize]; [dateOf] is the time value of
    [new Date(text)]. *)
Definition initialize (dateOf : string -> Js.number) (response : option (list product))
    (pg : page) : page :=
  match fetchProducts response pg with
  | (pg1, Some fetched) =>
      let sorted :=
        Js.sort
          (fun a b => Js.sub (dateOf (created_at (deref pg1 b)))
                             (dateOf (created_at (deref pg1 a))))
          fetched in
      let pg2 := Upd.state_of (Upd.products_ sorted) pg1 in
      let sold := List.filter (fun p => negb (available (deref pg2 p))) sorted in
      let pg3 := Upd.state_of (Upd.soldoutCount_ (Z.of_nat (length sold))) pg2 in
      updateView pg3
  | (pg1, None) =>
      showError "Failed to load products" "Please refresh or try again later" pg1
  end.

(** The [state] literal at the top of the scripts. *)
Definition state0 : state := State [] [] 1 0 false None [] ∅ None None.

(** [init] up to the point where [initialize] waits for the fetch; [html]
    is the document as parsed.  The page takes events from here on. *)
Definition boot (html : elements) : page :=
  let pg := Page [] state0 html false [] in
  let pg := Upd.elements_of (Upd.showSoldOutCheckbox_ false) pg in
  let pg := Upd.elements_of (Upd.searchInput_ "") pg in
  let pg := Upd.state_of (Upd.isLoading_ true) pg in
  updateCart pg.

(** [init], followed by the part of [initialize] that runs once the fetch
    has settled, with no event in between. *)
Definition init (dateOf : string -> Js.number) (response : option (list product))
    (html : elements) : page :=
  let pg := Page [] state0 html false [] in
  let pg := Upd.elements_of (Upd.showSoldOutCheckbox_ false) pg in
  let pg := Upd.elements_of (Upd.searchInput_ "") pg in
  let pg := updateCart pg in
  initialize dateOf response pg.

(** *** The listeners of [setupEventListeners], [render] and
    [createProductCard] *)

(** A key stroke in the search box: the box holds [value] afterwards, and
    the function that [utils.debounce] returns clears the timeout and sets
    a new one. *)
Definition onSearchKey (value : string) (pg : page) : page :=
  Upd.timer_ true (Upd.elements_of (Upd.searchInput_ value) pg).

(** The timeout fires, 300 ms after the last key stroke: the listener
    given to [utils.debounce] runs. *)
Definition onSearchInput (pg : page) : page :=
  updateView (Upd.state_of (Upd.currentPage_ 1) (Upd.timer_ false pg)).

Definition onShowSoldOutChange (checked : bool) (pg : page) : page :=
  let pg := Upd.elements_of (Upd.showSoldOutCheckbox_ checked) pg in
  updateView (Upd.state_of (Upd.currentPage_ 1) pg).

Definition onPrevClick (pg : page) : page :=
  updateView (Upd.state_of (Upd.currentPage_ (currentPage (st pg) - 1)) pg).

Definition onNextClick (pg : page) : page :=
  updateView (Upd.state_of (Upd.currentPage_ (currentPage (st pg) + 1)) pg).

Definition onPageClick (i : Z) (pg : page) : page :=
  updateView (Upd.state_of (Upd.currentPage_ i) pg).

(** One event of the shopper page.  A disabled control dispatches no
    click and a page button exists only for a rendered number.  The
    listener of a card's checkbox reads [dataset.id] back from the markup
    of the card, into which the identifier went unescaped: [dataId] is
    whatever the parser made of it. *)
Inductive step : page -> page -> Prop :=
| step_key (value : string) (pg : page) :
    step pg (onSearchKey value pg)
| step_timeout (pg : page) :
    timer pg = true -> step pg (onSearchInput pg)
| step_soldout (checked : bool) (pg : page) :
    step pg (onShowSoldOutChange checked pg)
| step_prev (pg : page) :
    prevBtn (els pg) = false -> step pg (onPrevClick pg)
| step_next (pg : page) :
    nextBtn (els pg) = false -> step pg (onNextClick pg)
| step_page (i : Z) (pg : page) :
    In i (pageNumbersContainer (els pg)) -> step pg (onPageClick i pg)
| step_checkbox (c : card) (dataId : string) (checked : bool) (pg : page) :
    In c (productsContainer (els pg)) -> checkboxDisabled c = false ->
    step pg (toggleCartItem dataId checked pg).

(** One event of the shopper page, the settling of the fetch included:
    [response] arrives while [initialize] waits for it. *)
Inductive pageEvent (dateOf : string -> Js.number) : page -> page -> Prop :=
| event_step (pg pg' : page) :
    step pg pg' -> pageEvent dateOf pg pg'
| event_loaded (response : option (list product)) (pg : page) :
    isLoading (st pg) = true -> pageEvent dateOf pg (initialize dateOf response pg).

(** The pages that a run of events of the relation [R] leads to from
    [start]. *)
Inductive reachable (R : page -> page -> Prop) (start : page) : page -> Prop :=
| reach_start : reachable R start start
| reach_step (pg pg' : page) :
    reachable R start pg -> R pg pg' -> reachable R start pg'.

(** ** The catalog editor

    Its script repeats the state, filter, pagination and view code above
    (its cards carry an edit and a delete button where the shopper's carry
    the checkbox) and adds what follows. *)

(** [getNextId] *)
Definition getNextId (pg : page) : string :=
  let ids :=
    Js.sort (fun a b => Js.sub b a)
      (map (fun p => Js.parseInt (Js.strSlice 2 (id (deref pg p)))) (products (st pg))) in
  let next :=
    match ids with
    | first :: _ => Js.add first (Js.Num 1)
    | [] => Js.Num 1
    end in
  "AP" +:+ Js.padStart 5 "0" (Js.toString next).

(** [convertImageToWebP], from the callback of [canvas.toBlob] on: the
    blob is stored under [outputName] and the promise resolves.  For a
    file that does not decode [img.onload] never runs, and neither does
    this. *)
Definition convertImageToWebP (result : blob) (outputName : string) (pg : page) : page :=
  Upd.state_of
    (Upd.convertedImages_ (<[outputName := result]> (convertedImages (st pg)))) pg.

(** [closeModal] *)
Definition closeModal (pg : page) : page :=
  Upd.elements_of (Upd.modals_ false false) pg.

(** [openAddModal]; [reset] leaves the fields of the form blank. *)
Definition openAddModal (pg : page) : page :=
  let pg := Upd.elements_of (Upd.modalTitle_ "Add Product") pg in
  let pg := Upd.state_of (Upd.editingProduct_ None) pg in
  let pg := Upd.elements_of (Upd.form_ "" "" "" Js.FNaN false None) pg in
  let pg := Upd.elements_of (Upd.form_ (getNextId pg) "" "" Js.FNaN true None) pg in
  Upd.elements_of (Upd.modals_ true (deleteModal (els pg))) pg.

(** [openEditModal]: the file input keeps what it held. *)
Definition openEditModal (p : loc) (pg : page) : page :=
  let product := deref pg p in
  let pg := Upd.elements_of (Upd.modalTitle_ "Edit Product") pg in
  let pg := Upd.state_of (Upd.editingProduct_ (Some p)) pg in
  let pg :=
    Upd.elements_of
      (fun e => Upd.form_ (id product) (name product) (species product) (price product)
                  (available product) (productImage e) e) pg in
  Upd.elements_of (Upd.modals_ true (deleteModal (els pg))) pg.

(** [openDeleteModal] *)
Definition openDeleteModal (p : loc) (pg : page) : page :=
  let pg := Upd.state_of (Upd.deleteTarget_ (Some p)) pg in
  let pg := Upd.elements_of (Upd.deleteProductName_ (name (deref pg p))) pg in
  Upd.elements_of (Upd.modals_ (modal (els pg)) true) pg.

(** [Object.assign(target, { name, species, price, available, image })] *)
Definition assign (target : product) (name' species' : string) (price' : Js.float)
    (available' : bool) (image' : string) : product :=
  Product (id target) name' species' price' available' (Some image') (created_at target).

(** [productForm.onsubmit], from [if (state.editingProduct)] to its end:
    [state.editingProduct] is read when this runs. *)
Definition finishSubmit (id' name' species' : string) (price' : Js.float)
    (available' : bool) (image' createdAt : string) (pg : page) : page :=
  let pg2 :=
    match editingProduct (st pg) with
    | Some p =>
        Upd.heap_of
          (fun h => <[p := assign (h !!! p) name' species' price' available' image']> h) pg
    | None =>
        let newProduct := Product id' name' species' price' available' (Some image') createdAt in
        Upd.state_of (Upd.products_ (length (heap pg) :: products (st pg)))
          (Upd.heap_of (fun h => h ++ [newProduct]) pg)
    end in
  let pg3 := Upd.state_of (Upd.editedProducts_ (editedProducts (st pg2) ++ [id'])) pg2 in
  closeModal (updateView pg3).

(** [productForm.onsubmit]; [now] is [new Date().toISOString()].  With no
    file chosen the handler runs to its end; with a file it stops at the
    [await] and joins the handlers that wait. *)
Definition onsubmit (now : string) (pg : page) : page :=
  let id' := productId (els pg) in
  let name' := Js.trim (productName (els pg)) in
  let species' := Js.trim (productSpecies (els pg)) in
  let price' := productPrice (els pg) in
  let available' := productAvailable (els pg) in
  let file := productImage (els pg) in
  let editing := editingProduct (st pg) in
  let createdAt :=
    match editing with
    | Some p => created_at (deref pg p)
    | None => now
    end in
  let image0 :=
    match editing with
    | Some p =>
        match image (deref pg p) with
        | Some (String c f) => String c f
        | _ => ""
        end
    | None => ""
    end in
  match file with
  | Some f =>
      let safeName := Js.replaceSpaceRuns "_" false (Js.toLowerCase name') in
      let imageFileName := id' +:+ "_" +:+ safeName +:+ ".webp" in
      Upd.awaiting_
        (awaiting pg ++
         [Submission id' name' species' price' available' f createdAt imageFileName]) pg
  | None => finishSubmit id' name' species' price' available' image0 createdAt pg
  end.

(** The re-encoding that the [k]-th waiting handler started ends: the
    callback of [canvas.toBlob] stores the blob ([Null] unless [encoded]),
    and the handler goes on behind its [await].  [None] when no such
    handler waits. *)
Definition onEncoded (k : nat) (encoded : bool) (pg : page) : option page :=
  match awaiting pg !! k with
  | None => None
  | Some sub =>
      let result := if encoded then WebP (sub_file sub) else Null in
      let pg1 := Upd.awaiting_ (delete k (awaiting pg)) pg in
      let pg2 := convertImageToWebP result (sub_imageFileName sub) pg1 in
      Some (finishSubmit (sub_id sub) (sub_name sub) (sub_species sub) (sub_price sub)
              (sub_available sub) (sub_imageFileName sub) (sub_createdAt sub) pg2)
  end.

(** [confirmDelete.onclick]; [None] is the [TypeError] of reading [id]
    from a null [deleteTarget]. *)
Definition confirmDeleteClick (pg : page) : option page :=
  match deleteTarget (st pg) with
  | None => None
  | Some t =>
      let tid := id (deref pg t) in
      let kept :=
        List.filter (fun p => negb (String.eqb (id (deref pg p)) tid)) (products (st pg)) in
      let pg1 := Upd.state_of (Upd.products_ kept) pg in
      let pg2 := Upd.state_of (Upd.editedProducts_ (editedProducts (st pg1) ++ [tid])) pg1 in
      Some (closeModal (updateView pg2))
  end.

(** [extendedInit]: the editor's [init] has no cart to draw. *)
Definition extendedInit (dateOf : string -> Js.number) (response : option (list product))
    (html : elements) : page :=
  let pg := Page [] state0 html false [] in
  let pg := Upd.elements_of (Upd.showSoldOutCheckbox_ false) pg in
  let pg := Upd.elements_of (Upd.searchInput_ "") pg in
  initialize dateOf response pg.

(** One event of the editor: the shared filter and pagination listeners,
    the buttons of the cards, typing into the form, the handlers of the
    two dialogs, and the end of a re-encoding. *)
Inductive adminStep : page -> page -> Prop :=
| admin_key (value : string) (pg : page) :
    adminStep pg (onSearchKey value pg)
| admin_timeout (pg : page) :
    timer pg = true -> adminStep pg (onSearchInput pg)
| admin_soldout (checked : bool) (pg : page) :
    adminStep pg (onShowSoldOutChange checked pg)
| admin_prev (pg : page) :
    prevBtn (els pg) = false -> adminStep pg (onPrevClick pg)
| admin_next (pg : page) :
    nextBtn (els pg) = false -> adminStep pg (onNextClick pg)
| admin_page (i : Z) (pg : page) :
    In i (pageNumbersContainer (els pg)) -> adminStep pg (onPageClick i pg)
| admin_add (pg : page) :
    adminStep pg (openAddModal pg)
| admin_edit (c : card) (pg : page) :
    In c (productsContainer (els pg)) -> adminStep pg (openEditModal (source c) pg)
| admin_delete (c : card) (pg : page) :
    In c (productsContainer (els pg)) -> adminStep pg (openDeleteModal (source c) pg)
| admin_typing (i n s : string) (p : Js.float) (a : bool) (f : option string) (pg : page) :
    adminStep pg (Upd.elements_of (Upd.form_ i n s p a f) pg)
| admin_submit (now : string) (pg : page) :
    adminStep pg (onsubmit now pg)
| admin_encoded (k : nat) (encoded : bool) (pg pg' : page) :
    onEncoded k encoded pg = Some pg' -> adminStep pg pg'
| admin_confirm (pg pg' : page) :
    confirmDeleteClick pg = Some pg' -> adminStep pg pg'
| admin_close (pg : page) :
    adminStep pg (closeModal pg).

(** ** Vocabulary of the statements *)

(** [pat] occurs somewhere in [s]. *)
Definition isSubstringOf (pat s : string) : Prop :=
  exists before after : string, s = before +:+ pat +:+ after.

(** The text half of the filter: the keyword, in lower case, occurs in the
    identifier, the name or the species, in lower case. *)
Definition textMatch (keyword : string) (p : product) : Prop :=
  isSubstringOf (Js.toLowerCase keyword) (Js.toLowerCase (id p)) \/
  isSubstringOf (Js.toLowerCase keyword) (Js.toLowerCase (name p)) \/
  isSubstringOf (Js.toLowerCase keyword) (Js.toLowerCase (species p)).

(** What the page lists, and how many pages that makes. *)
Definition shown (pg : page) : list loc :=
  getFilteredProducts (Js.trim (searchInput (els pg))) (showSoldOutCheckbox (els pg)) pg.

Definition totalPagesOf (pg : page) : Z := getTotalPages (Z.of_nat (length (shown pg))).



(** The number of cart entries that carry the identifier [pid]. *)
Definition entriesFor (pid : string) (items : list product) : nat :=
  length (List.filter (fun item => String.eqb (id item) pid) items).

(** The numeric suffix of a product's identifier, as [getNextId] reads it. *)
Definition suffixOf (pg : page) (p : loc) : Js.number :=
  Js.parseInt (Js.strSlice 2 (id (deref pg p))).

(** The numeric suffixes of the catalog are within the range in which
    the script's arithmetic is exact. *)
Definition exactSuffixes (pg : page) : Prop :=
  forall (p : loc) (n : Z),
    In p (products (st pg)) -> suffixOf pg p = Js.Num n -> Z.abs n < Js.MAX_EXACT.

(** The comparator of [getNextId]: larger numbers first. *)
Definition descending (a b : Js.number) : Js.number := Js.sub b a.

(** The catalog holds a product with the identifier [pid]. *)
Definition inCatalog (pid : string) (pg : page) : Prop :=
  exists p : loc, In p (products (st pg)) /\ id (deref pg p) = pid.

(** A blank document and a few catalogs for the worked examples; the
    creation dates are written as day numbers. *)
Module Sample.

Definition blank : elements :=
  Elements [] Hidden 0 (Js.Fin 0) true "" false [] false false ""
    false "" "" "" "" Js.FNaN false None false "".

(** The same document with both arrows disabled. *)
Definition shipped : elements :=
  Elements [] Hidden 0 (Js.Fin 0) true "" false [] true true ""
    false "" "" "" "" Js.FNaN false None false "".

Definition dateOf (text : string) : Js.number := Js.parseInt text.

Definition plant (i n : string) (a : bool) (day : string) : product :=
  Product i n "Anubias" (Js.Fin 12) a None day.

(** Five available products and one that is sold out. *)
Definition six : list product :=
  [plant "AP00001" "Nana" true "1"; plant "AP00002" "Petite" true "2";
   plant "AP00003" "Coffeefolia" true "3"; plant "AP00004" "Golden" true "4";
   plant "AP00005" "Barteri" true "5"; plant "AP00006" "Hastifolia" false "6"].

Definition two : list product :=
  [plant "AP00001" "Nana" true "1"; plant "AP00003" "Coffeefolia" false "3"].

(** A page whose cart holds the same product twice. *)
Definition doubled : page :=
  Page [plant "AP00001" "Nana" true "1"]
    (Upd.cart_ [plant "AP00001" "Nana" true "1"; plant "AP00001" "Nana" true "1"]
       (Upd.products_ [0%nat] state0))
    blank false [].

End Sample.

(** The shopper page and the editor once their catalogs are loaded. *)
Definition shop : page := init Sample.dateOf (Some Sample.six) Sample.blank.
Definition editor : page := extendedInit Sample.dateOf (Some Sample.two) Sample.blank.

(** The editor with six products, on page 2 of 2, asked to delete the
    only product of that page; and the page after the deletion. *)
Definition lastPageDelete : page :=
  openDeleteModal 0%nat (onNextClick (extendedInit Sample.dateOf (Some Sample.six) Sample.blank)).

Definition afterLastPageDelete : page :=
  from_option (fun pg => pg) lastPageDelete (confirmDeleteClick lastPageDelete).

(** The editor with a file chosen in the form. *)
Definition editorWithFile : page :=
  Upd.elements_of
    (Upd.form_ "AP00004" "Java  Fern" "Microsorum" (Js.Fin 9) true (Some "RIFF"))
    (openAddModal editor).

(** That form submitted, and the page once the file is re-encoded. *)
Definition javaFernWaiting : page := onsubmit "7" editorWithFile.

Definition javaFernStored : page :=
  from_option (fun pg => pg) javaFernWaiting (onEncoded 0 true javaFernWaiting).

(** The shopper page, shipped with its arrows disabled, once the catalog
    has arrived; right after "nana" is typed into the search box, before
    the debounced listener has run; and after a click on the next arrow
    at that moment. *)
Definition arrived : page :=
  initialize Sample.dateOf (Some Sample.six) (boot Sample.shipped).



(** The editor with six products: the form for "AP00005" is submitted
    with a file chosen, the dialog is closed and the edit button of
    "AP00004" clicked while the file is re-encoded, and then the
    re-encoding ends. *)
Definition editorSix : page := extendedInit Sample.dateOf (Some Sample.six) Sample.blank.

Definition barteriSubmitted : page :=
  onsubmit "7"
    (Upd.elements_of
       (Upd.form_ "AP00005" "Barteri Broad" "Anubias" (Js.Fin 15) true (Some "photo"))
       (openEditModal 4%nat editorSix)).

Definition goldenOpened : page := openEditModal 3%nat (closeModal barteriSubmitted).

Definition goldenOverwritten : page :=
  from_option (fun pg => pg) goldenOpened (onEncoded 0 true goldenOpened).

Fixpoint zeros (n : nat) : string :=
  match n with
  | O => EmptyString
  | S n' => String "0" (zeros n')
  end.

(** *** Vocabulary of the further properties *)

(** The time value [initialize] sorts a product by. *)
Definition dateKey (dateOf : string -> Js.number) (pg : page) (p : loc) : Js.number :=
  dateOf (created_at (deref pg p)).

(** Both dates are valid and [a] is at least as new as [b]. *)
Definition newerOrSame (dateOf : string -> Js.number) (pg : page) (a b : loc) : Prop :=
  exists x y : Z, dateKey dateOf pg a = Js.Num x /\ dateKey dateOf pg b = Js.Num y /\ y <= x.

(** The comparator "larger key first", and the order it sorts into when
    the keys are numbers. *)
Definition largerFirst {X : Type} (key : X -> Js.number) (a b : X) : Js.number :=
  Js.sub (key b) (key a).

Definition keyAbove {X : Type} (key : X -> Js.number) (a b : X) : Prop :=
  exists x y : Z, key a = Js.Num x /\ key b = Js.Num y /\ y <= x.

(** The summary box of the cart shows the cart as it is. *)
Definition cartBoxOk (pg : page) : Prop :=
  cartCount (els pg) = Z.of_nat (length (cart (st pg))) /\
  totalAmount (els pg)
  = foldl (fun sum item => Js.fadd sum (price item)) (Js.Fin 0) (cart (st pg)) /\
  whatsappBtn (els pg) = (Z.of_nat (length (cart (st pg))) =? 0).


(** Every cart entry is a copy of a catalog product. *)
Definition cartFromCatalog (pg : page) : Prop :=
  forall item : product,
    In item (cart (st pg)) ->
    exists p : loc, In p (products (st pg)) /\ deref pg p = item.

(** A decimal numeral with [n] more zeros in front. *)
Fixpoint zeroPadded (n : nat) (d : Decimal.uint) : Decimal.uint :=
  match n with
  | O => d
  | S n' => Decimal.D0 (zeroPadded n' d)
  end.

(** The file name the submit handler builds from the form as it stands. *)
Definition formImageName (pg : page) : string :=
  productId (els pg) +:+ "_" +:+
  Js.replaceSpaceRuns "_" false (Js.toLowerCase (Js.trim (productName (els pg)))) +:+
  ".webp".



(** Every reference the catalog holds points into the store. *)
Definition liveCatalog (pg : page) : Prop :=
  forall p : loc, In p (products (st pg)) -> (p < length (heap pg))%nat.

(** The identifiers of the catalog, in its order. *)
Definition catalogIds (pg : page) : list string :=
  map (fun p => id (deref pg p)) (products (st pg)).

(** ** Strings *)

Section Strings.

Lemma append_cons (c : ascii) (s t : string) : String c s +:+ t = String c (s +:+ t).
Proof. reflexivity. Qed.

Lemma append_nil (t : string) : "" +:+ t = t.
Proof. reflexivity. Qed.

Lemma append_empty_r (s : string) : s +:+ "" = s.
Proof.
  induction s as [|c s IH]; [reflexivity|]. now rewrite append_cons, IH.
Qed.

Lemma append_assoc (a b c : string) : (a +:+ b) +:+ c = a +:+ (b +:+ c).
Proof.
  induction a as [|x a IH]; [reflexivity|]. now rewrite !append_cons, IH.
Qed.

Lemma append_length (a b : string) :
  String.length (a +:+ b) = (String.length a + String.length b)%nat.
Proof.
  induction a as [|x a IH]; [reflexivity|]. rewrite append_cons. simpl. now rewrite IH.
Qed.

Lemma matchesAt_prefix (pat s : string) :
  Js.matchesAt pat s = true <-> exists after, s = pat +:+ after.
Proof.
  revert s. induction pat as [|a pat IH]; intros s; simpl.
  - split; [intros _; now exists s | reflexivity].
  - destruct s as [|b s].
    + split; [discriminate | intros [after H]; discriminate].
    + destruct (Ascii.eqb_spec a b) as [->|Hne].
      * rewrite IH. split; intros [after H]; exists after.
        -- now rewrite H.
        -- rewrite append_cons in H. now injection H.
      * split; [discriminate|].
        intros [after H]. rewrite append_cons in H. injection H; intros; now subst.
Qed.

Lemma includes_substring (s pat : string) :
  Js.includes s pat = true <-> isSubstringOf pat s.
Proof.
  unfold isSubstringOf. induction s as [|c s IH]; simpl.
  - rewrite orb_false_r, matchesAt_prefix. split.
    + intros [after H]. now exists "", after.
    + intros [[|x before] [after H]]; [now exists after | discriminate].
  - rewrite orb_true_iff, IH, matchesAt_prefix. split.
    + intros [[after H] | [before [after H]]].
      * now exists "", after.
      * exists (String c before), after. rewrite append_cons. now rewrite H.
    + intros [[|x before] [after H]].
      * left. now exists after.
      * right. rewrite append_cons in H. injection H as _ H. now exists before, after.
Qed.

Lemma includes_empty (s : string) : Js.includes s "" = true.
Proof. destruct s; reflexivity. Qed.

End Strings.

(** ** C1: the catalog filter *)

Section Filter.

Lemma filter_sublist {A : Type} (f : A -> bool) (l : list A) :
  sublist (List.filter f l) l.
Proof.
  induction l as [|x l IH]; simpl.
  - constructor.
  - destruct (f x); now constructor.
Qed.

Lemma filter_all {A : Type} (f : A -> bool) (l : list A) :
  (forall x, In x l -> f x = true) -> List.filter f l = l.
Proof.
  induction l as [|x l IH]; simpl; intros H; [reflexivity|].
  rewrite (H x (or_introl eq_refl)). f_equal. apply IH. intros y Hy. apply H. now right.
Qed.

(** C1. [getFilteredProducts k s] is a subsequence of the catalog, its
    members are exactly the catalog's products whose identifier, name or
    species contains the keyword (all in lower case) and that are
    available or shown because [s] is set, and the empty keyword with
    [s] set gives back the whole catalog. *)
Theorem getFilteredProducts_spec (k : string) (s : bool) (pg : page) :
  sublist (getFilteredProducts k s pg) (products (st pg)) /\
  (forall p : loc,
      In p (getFilteredProducts k s pg) <->
      In p (products (st pg)) /\ textMatch k (deref pg p) /\
      (available (deref pg p) = true \/ s = true)) /\
  getFilteredProducts "" true pg = products (st pg).
Proof.
  split; [apply filter_sublist | split].
  - intros p. unfold getFilteredProducts. rewrite filter_In. cbv zeta.
    rewrite andb_true_iff, orb_true_iff. unfold textMatch. simpl existsb.
    rewrite orb_false_r, !orb_true_iff, !includes_substring. tauto.
  - unfold getFilteredProducts. apply filter_all. intros p _. cbv zeta. simpl.
    now rewrite includes_empty.
Qed.

End Filter.

(** ** C2 and C3: pagination arithmetic *)

Section Pagination.

Context {A : Type}.
Implicit Types (items : list A) (pg : page).

Lemma getTotalPages_div (n : Z) : getTotalPages n = - (- n / 4).
Proof.
  unfold getTotalPages, Js.ceilDiv, Qceiling, Qfloor, Qopp, Qdiv, Qmult, Qinv,
    inject_Z, ITEMS_PER_PAGE.
  cbn [Qnum Qden]. change (Z.pos (1 * 4)) with 4. now rewrite Z.mul_1_r.
Qed.

(** [getTotalPages n] is the least number of groups of four that hold
    [n] items. *)
Lemma getTotalPages_ceiling (n : Z) :
  ITEMS_PER_PAGE * (getTotalPages n - 1) < n <= ITEMS_PER_PAGE * getTotalPages n.
Proof.
  rewrite getTotalPages_div. unfold ITEMS_PER_PAGE.
  pose proof (Z.div_mod (- n) 4 ltac:(lia)).
  pose proof (Z.mod_pos_bound (- n) 4 ltac:(lia)). lia.
Qed.

Lemma currentPage_set (i : Z) pg :
  currentPage (st (Upd.state_of (Upd.currentPage_ i) pg)) = i.
Proof. reflexivity. Qed.

(** With a start and an end that are not negative, [slice] is a [take]
    of a [drop]. *)
Lemma slice_take_drop (a n : nat) items :
  Js.slice (Z.of_nat a) (Z.of_nat a + Z.of_nat n) items = take n (drop a items).
Proof.
  unfold Js.slice.
  destruct (Z.ltb_spec (Z.of_nat a) 0) as [?|_]; [lia|].
  destruct (Z.ltb_spec (Z.of_nat a + Z.of_nat n) 0) as [?|_]; [lia|].
  destruct (Nat.le_gt_cases a (length items)) as [Hle|Hgt].
  - replace (Z.to_nat (Z.min (Z.of_nat a) (Z.of_nat (length items)))) with a by lia.
    destruct (Nat.le_gt_cases (a + n) (length items)) as [Hin|Hout].
    + f_equal. lia.
    + rewrite !take_ge; [reflexivity | |]; rewrite length_drop; lia.
  - rewrite !(drop_ge items) by lia. now rewrite !take_nil.
Qed.

(** The page shown for page number [1 + j]. *)
Lemma getPaginatedProducts_nth (j : nat) items pg :
  getPaginatedProducts items (Upd.state_of (Upd.currentPage_ (1 + Z.of_nat j)) pg)
  = take 4 (drop (4 * j) items).
Proof.
  unfold getPaginatedProducts. rewrite currentPage_set. unfold ITEMS_PER_PAGE.
  replace ((1 + Z.of_nat j - 1) * 4) with (Z.of_nat (4 * j)) by lia.
  apply (slice_take_drop (4 * j) 4).
Qed.

Lemma pages_concat (k : nat) items pg :
  concat
    (map (fun i => getPaginatedProducts items (Upd.state_of (Upd.currentPage_ i) pg))
       (seqZ 1 (Z.of_nat k)))
  = take (4 * k) items.
Proof.
  induction k as [|k IH].
  - reflexivity.
  - rewrite seqZ_S, map_app, concat_app, IH. cbn [map concat].
    rewrite getPaginatedProducts_nth, app_nil_r, take_take_drop. f_equal. lia.
Qed.

(** C2. For a filtered list of [n] items [getTotalPages n] is the
    ceiling of [n / 4], and the slices that [getPaginatedProducts] gives
    for the pages 1, 2, ..., [getTotalPages n], put one after the other,
    are the filtered list itself: no item is lost and none comes
    twice. *)
Theorem pages_cover_filtered_list (filtered : list A) (pg : page) :
  let n := Z.of_nat (length filtered) in
  (ITEMS_PER_PAGE * (getTotalPages n - 1) < n <= ITEMS_PER_PAGE * getTotalPages n) /\
  concat
    (map (fun i => getPaginatedProducts filtered (Upd.state_of (Upd.currentPage_ i) pg))
       (seqZ 1 (getTotalPages n)))
  = filtered.
Proof.
  intros n. pose proof (getTotalPages_ceiling n) as Hc. split; [exact Hc|].
  unfold ITEMS_PER_PAGE in Hc.
  assert (0 <= getTotalPages n) as Hpos by lia.
  rewrite <- (Z2Nat.id (getTotalPages n)) by exact Hpos.
  rewrite pages_concat. apply take_ge. lia.
Qed.

End Pagination.

Section PageRange.

Lemma half_of_window : Js.floorDiv MAX_VISIBLE_PAGES 2 = 2.
Proof. reflexivity. Qed.

(** C3. With at least one page and the current page among them, the
    window of [calculatePageRange] lies within the pages and holds the
    current page; up to five pages it is all of them, from five pages
    on it is five wide, centred on the current page unless that would
    leave the pages, in which case it starts at page 1 or ends at the
    last page. *)
Theorem calculatePageRange_window (totalPages : Z) (pg : page) :
  0 <= totalPages ->
  1 <= currentPage (st pg) <= totalPages ->
  let r := calculatePageRange totalPages pg in
  let cur := currentPage (st pg) in
  (1 <= start r <= end_ r /\ end_ r <= totalPages) /\
  (start r <= cur <= end_ r) /\
  (totalPages <= 5 -> start r = 1 /\ end_ r = totalPages) /\
  (5 <= totalPages ->
     end_ r - start r + 1 = 5 /\
     (1 <= cur - 2 /\ cur + 2 <= totalPages -> start r = cur - 2 /\ end_ r = cur + 2) /\
     (cur - 2 < 1 -> start r = 1) /\
     (totalPages < cur + 2 -> end_ r = totalPages)).
Proof.
  intros Htotal Hcur r cur. subst r cur. unfold calculatePageRange.
  rewrite half_of_window. unfold MAX_VISIBLE_PAGES.
  destruct (Z.leb_spec totalPages 5) as [Hsmall|Hbig]; cbn [start end_].
  - lia.
  - destruct (Z.ltb_spec
               (Z.min totalPages (Z.max 1 (currentPage (st pg) - 2) + 5 - 1)
                - Z.max 1 (currentPage (st pg) - 2)) (5 - 1)); lia.
Qed.

(** On the loaded shopper page, page 1 of 2, the window is 1..2. *)
Lemma calculatePageRange_window_witness :
  start (calculatePageRange 2 shop) = 1 /\ end_ (calculatePageRange 2 shop) = 2.
Proof.
  destruct (calculatePageRange_window 2 shop ltac:(lia) ltac:(vm_compute; intuition discriminate))
    as (_ & _ & Hall & _).
  apply Hall. lia.
Defined.

End PageRange.

(** ** What the view functions leave alone *)

Section View.

Implicit Types (pg : page).

Ltac unfold_view :=
  unfold updateView, updateFilterInfo, render, renderProducts, showNoProducts.

Lemma updateView_st pg : st (updateView pg) = st pg.
Proof. unfold_view. now destruct (_ =? 0). Qed.

Lemma updateView_heap pg : heap (updateView pg) = heap pg.
Proof. unfold_view. now destruct (_ =? 0). Qed.

Lemma updateView_searchInput pg :
  searchInput (els (updateView pg)) = searchInput (els pg).
Proof. unfold_view. now destruct (_ =? 0). Qed.

Lemma updateView_showSoldOut pg :
  showSoldOutCheckbox (els (updateView pg)) = showSoldOutCheckbox (els pg).
Proof. unfold_view. now destruct (_ =? 0). Qed.

Lemma updateView_prevBtn pg :
  prevBtn (els (updateView pg)) = (currentPage (st pg) =? 1).
Proof. unfold_view. now destruct (_ =? 0). Qed.

Lemma updateView_nextBtn pg :
  nextBtn (els (updateView pg))
  = ((currentPage (st pg) =? totalPagesOf pg) || (totalPagesOf pg =? 0)).
Proof. unfold_view. now destruct (_ =? 0). Qed.


(** What is listed depends on the store, the catalog and the two
    filter controls only. *)
Lemma shown_ext pg pg' :
  heap pg' = heap pg -> products (st pg') = products (st pg) ->
  searchInput (els pg') = searchInput (els pg) ->
  showSoldOutCheckbox (els pg') = showSoldOutCheckbox (els pg) ->
  shown pg' = shown pg.
Proof.
  intros Hh Hp Hs Hc. unfold shown, getFilteredProducts, deref.
  now rewrite Hh, Hp, Hs, Hc.
Qed.

Lemma shown_updateView pg : shown (updateView pg) = shown pg.
Proof.
  apply shown_ext;
    [apply updateView_heap | now rewrite updateView_st
    | apply updateView_searchInput | apply updateView_showSoldOut].
Qed.






End View.

(** ** C4: the current page stays among the pages *)

Section Pager.

Implicit Types (pg : page).

(** A cart toggle touches the cart and its summary box only. *)
Lemma toggleCartItem_frame (productId : string) (isChecked : bool) pg :
  let pg' := toggleCartItem productId isChecked pg in
  heap pg' = heap pg /\ products (st pg') = products (st pg) /\
  currentPage (st pg') = currentPage (st pg) /\
  soldoutCount (st pg') = soldoutCount (st pg) /\
  searchInput (els pg') = searchInput (els pg) /\
  showSoldOutCheckbox (els pg') = showSoldOutCheckbox (els pg) /\
  prevBtn (els pg') = prevBtn (els pg) /\ nextBtn (els pg') = nextBtn (els pg) /\
  pageNumbersContainer (els pg') = pageNumbersContainer (els pg).
Proof.
  unfold toggleCartItem, updateCart.
  destruct (List.find _ _); [|now repeat split].
  destruct isChecked; [destruct (existsb _ _)|]; now repeat split.
Qed.




Lemma toggleCartItem_isLoading (productId : string) (isChecked : bool) pg :
  isLoading (st (toggleCartItem productId isChecked pg)) = isLoading (st pg).
Proof.
  unfold toggleCartItem, updateCart.
  destruct (List.find _ _); [|reflexivity].
  destruct isChecked; [destruct (existsb _ _)|]; reflexivity.
Qed.

(** An empty catalog lists nothing, whatever the search box holds. *)
Lemma shown_empty pg : products (st pg) = [] -> shown pg = [].
Proof. intros Hnone. unfold shown, getFilteredProducts. now rewrite Hnone. Qed.






(** [init] is [boot] followed at once by the settling of the fetch. *)
Lemma init_boot (dateOf : string -> Js.number) (response : option (list product))
    (html : elements) :
  init dateOf response html = initialize dateOf response (boot html).
Proof. reflexivity. Qed.







(** The arrows of the document matter before the first render: with a
    document that ships the next arrow enabled, a click on it while the
    catalog is still loading leads to page 2 with nothing listed and the
    previous arrow enabled. *)
Lemma next_click_while_loading :
  reachable (pageEvent Sample.dateOf) (boot Sample.blank) (onNextClick (boot Sample.blank)) /\
  currentPage (st (onNextClick (boot Sample.blank))) = 2 /\
  length (shown (onNextClick (boot Sample.blank))) = 0%nat /\
  prevBtn (els (onNextClick (boot Sample.blank))) = false.
Proof.
  split; [|now vm_compute].
  eapply reach_step; [apply reach_start|]. apply event_step, step_next. reflexivity.
Qed.

End Pager.

(** ** C5: the next identifier *)

Section NextId.

Implicit Types (pg : page) (zs : list Z).

(** Sorted from large to small, a list of integers starts with its
    maximum. *)
Lemma sort_descending_head (z : Z) zs :
  exists m rest,
    Js.sort descending (map Js.Num (z :: zs)) = Js.Num m :: rest /\
    In m (z :: zs) /\ (forall n, In n (z :: zs) -> n <= m).
Proof.
  revert z. induction zs as [|y zs IH]; intros z.
  - exists z, []. repeat split; [now left|]. intros n [<-|[]]. lia.
  - destruct (IH y) as (m & rest & Hsort & Hin & Hmax).
    change (Js.sort descending (map Js.Num (z :: y :: zs)))
      with (Js.insertBy descending (Js.Num z) (Js.sort descending (map Js.Num (y :: zs)))).
    rewrite Hsort. cbn [Js.insertBy descending Js.sub Js.keepsOrder].
    destruct (Z.leb_spec (m - z) 0) as [Hle|Hgt].
    + exists z, (Js.Num m :: rest). repeat split; [now left|].
      intros n [<-|Hn]; [lia|]. specialize (Hmax n Hn). lia.
    + exists m, (Js.insertBy descending (Js.Num z) rest). repeat split; [now right|].
      intros n [<-|Hn]; [lia|]. now apply Hmax.
Qed.

Lemma all_numbers {X : Type} (f : X -> Js.number) (l : list X) :
  (forall x, In x l -> f x <> Js.NaN) -> exists zs, map f l = map Js.Num zs.
Proof.
  induction l as [|x l IH]; intros Hall.
  - now exists [].
  - destruct IH as [zs Hzs]; [intros y Hy; apply Hall; now right|].
    destruct (f x) as [|z] eqn:Hx; [now destruct (Hall x (or_introl eq_refl))|].
    exists (z :: zs). cbn [map]. now rewrite Hx, Hzs.
Qed.

Lemma filler_zeros (n : nat) :
  Js.filler n "0" "0" = zeros n /\ Js.filler n "0" "" = zeros n.
Proof.
  induction n as [|n [IH0 IH1]]; [now split|].
  split; cbn [Js.filler zeros]; now rewrite IH1.
Qed.

(** Padding with the one-character string ["0"] puts as many zeros in
    front as are missing to the width. *)
Lemma padStart_zeros (width : nat) (s : string) :
  Js.padStart (Z.of_nat width) "0" s = zeros (width - String.length s) +:+ s.
Proof.
  unfold Js.padStart. destruct (Z.leb_spec (Z.of_nat width) (Z.of_nat (String.length s))).
  - now replace (width - String.length s)%nat with 0%nat by lia.
  - replace (Z.to_nat (Z.of_nat width - Z.of_nat (String.length s)))
      with (width - String.length s)%nat by lia.
    now rewrite (proj1 (filler_zeros _)).
Qed.

(** C5. [getNextId] gives ["AP00001"] on an empty catalog and
    ["AP00004"] on a catalog with the identifiers AP00001 and AP00003;
    in general, when every identifier has an integer after its first
    two characters, and these integers are within the range in which
    the script's arithmetic is exact, it gives ["AP"] followed by one
    plus the largest of these integers, with zeros in front up to five
    characters. *)
Theorem getNextId_spec (pg : page) :
  (products (st pg) = [] -> getNextId pg = "AP00001") /\
  (Permutation ["AP00001"; "AP00003"] (map (fun p => id (deref pg p)) (products (st pg))) ->
   getNextId pg = "AP00004") /\
  (products (st pg) <> [] ->
   (forall p, In p (products (st pg)) -> suffixOf pg p <> Js.NaN) ->
   exactSuffixes pg ->
   exists m : Z,
     (exists p, In p (products (st pg)) /\ suffixOf pg p = Js.Num m) /\
     (forall p n, In p (products (st pg)) -> suffixOf pg p = Js.Num n -> n <= m) /\
     let digits := Js.toString (Js.Num (1 + m)) in
     getNextId pg = "AP" +:+ zeros (5 - String.length digits) +:+ digits).
Proof.
  unfold getNextId. split; [|split].
  - now intros ->.
  - intros Hperm. apply Permutation_length_2_inv in Hperm.
    destruct (products (st pg)) as [|p1 [|p2 [|p3 l]]]; cbn [map] in Hperm;
      destruct Hperm as [Hids | Hids]; try discriminate;
      injection Hids as H1 H3; cbn [map]; now rewrite H1, H3.
  - intros Hsome Hnum _.
    destruct (all_numbers (suffixOf pg) _ Hnum) as [zs Hzs].
    change (map (fun p => Js.parseInt (Js.strSlice 2 (id (deref pg p)))) (products (st pg)))
      with (map (suffixOf pg) (products (st pg))).
    change (fun a b : Js.number => Js.sub b a) with descending.
    rewrite Hzs. destruct zs as [|z zs].
    { destruct (products (st pg)); [now destruct Hsome | discriminate]. }
    destruct (sort_descending_head z zs) as (m & rest & -> & Hin & Hmax).
    exists m. split; [|split].
    + assert (In (Js.Num m) (map (suffixOf pg) (products (st pg)))) as Hm
        by (rewrite Hzs; now apply in_map).
      apply in_map_iff in Hm. destruct Hm as (p & Hp & Hinp). now exists p.
    + intros p n Hp Hn. apply Hmax.
      assert (In (Js.Num n) (map Js.Num (z :: zs))) as Hm
        by (rewrite <- Hzs, <- Hn; now apply in_map).
      apply in_map_iff in Hm. destruct Hm as (n' & [= ->] & Hin'). exact Hin'.
    + cbn [Js.add]. rewrite (Z.add_comm m 1).
      change 5 with (Z.of_nat 5). now rewrite padStart_zeros.
Qed.

End NextId.

(** ** C6 and C9: the cart *)

Section Cart.

Implicit Types (pg : page) (items : list product) (pid : string).

Lemma entriesFor_app pid items items' :
  entriesFor pid (items ++ items') = (entriesFor pid items + entriesFor pid items')%nat.
Proof. unfold entriesFor. now rewrite List.filter_app, length_app. Qed.

Lemma entriesFor_some pid items :
  existsb (fun item => String.eqb (id item) pid) items = true <->
  (0 < entriesFor pid items)%nat.
Proof.
  unfold entriesFor. induction items as [|x items IH]; cbn [existsb List.filter].
  - split; [discriminate | cbn; lia].
  - destruct (String.eqb (id x) pid); cbn [orb length]; [split; [lia | reflexivity] | exact IH].
Qed.

Lemma entriesFor_removed pid items :
  entriesFor pid (List.filter (fun item => negb (String.eqb (id item) pid)) items) = 0%nat.
Proof.
  unfold entriesFor. induction items as [|x items IH]; [reflexivity|].
  cbn [List.filter]. destruct (String.eqb (id x) pid) eqn:Hx; cbn [negb List.filter];
    [exact IH | now rewrite Hx].
Qed.

Lemma entriesFor_filter_le pid (f : product -> bool) items :
  (entriesFor pid (List.filter f items) <= entriesFor pid items)%nat.
Proof.
  unfold entriesFor. induction items as [|x items IH]; [reflexivity|].
  cbn [List.filter]. destruct (f x), (String.eqb (id x) pid) eqn:Hx;
    cbn [List.filter length]; rewrite ?Hx; cbn [length]; lia.
Qed.

(** The cart after a toggle, case by case. *)
Lemma toggleCartItem_cart pid (isChecked : bool) pg :
  cart (st (toggleCartItem pid isChecked pg)) =
  match List.find (fun p => String.eqb (id (deref pg p)) pid) (products (st pg)) with
  | None => cart (st pg)
  | Some p =>
      if isChecked then
        if existsb (fun item => String.eqb (id item) pid) (cart (st pg))
        then cart (st pg) else cart (st pg) ++ [deref pg p]
      else List.filter (fun item => negb (String.eqb (id item) pid)) (cart (st pg))
  end.
Proof.
  unfold toggleCartItem, updateCart. destruct (List.find _ _); [|reflexivity].
  destruct isChecked; [destruct (existsb _ _)|]; reflexivity.
Qed.

Lemma find_inCatalog pid pg :
  inCatalog pid pg ->
  exists p, List.find (fun p => String.eqb (id (deref pg p)) pid) (products (st pg)) = Some p
            /\ id (deref pg p) = pid.
Proof.
  intros (q & Hq & Hid).
  destruct (List.find _ _) as [p|] eqn:Hfind.
  - exists p. split; [reflexivity|]. apply find_some in Hfind. now apply String.eqb_eq.
  - apply (find_none _ _ Hfind) in Hq. apply String.eqb_neq in Hq. contradiction.
Qed.

Lemma inCatalog_toggle pid pid' (isChecked : bool) pg :
  inCatalog pid pg -> inCatalog pid (toggleCartItem pid' isChecked pg).
Proof.
  destruct (toggleCartItem_frame pid' isChecked pg) as (Hh & Hp & _).
  unfold inCatalog, deref. now rewrite Hh, Hp.
Qed.

(** Checking a product that is in the catalog leaves one entry for it
    when there was at most one. *)
Lemma toggle_on_once pid pg :
  inCatalog pid pg -> (entriesFor pid (cart (st pg)) <= 1)%nat ->
  entriesFor pid (cart (st (toggleCartItem pid true pg))) = 1%nat.
Proof.
  intros Hcat Hone. rewrite toggleCartItem_cart.
  destruct (find_inCatalog pid pg Hcat) as (p & -> & Hid).
  destruct (existsb _ _) eqn:Hsome.
  - apply entriesFor_some in Hsome. lia.
  - rewrite entriesFor_app. unfold entriesFor at 2. cbn [List.filter].
    rewrite Hid, String.eqb_refl. cbn [length].
    destruct (entriesFor pid (cart (st pg))) eqn:Hcount; [reflexivity|].
    assert (existsb (fun item => String.eqb (id item) pid) (cart (st pg)) = true) as Habs
      by (apply entriesFor_some; lia).
    congruence.
Qed.

(** A toggle keeps the cart free of doubles. *)
Lemma toggle_keeps_single pid' (isChecked : bool) pg :
  (forall pid, (entriesFor pid (cart (st pg)) <= 1)%nat) ->
  forall pid, (entriesFor pid (cart (st (toggleCartItem pid' isChecked pg))) <= 1)%nat.
Proof.
  intros Hone pid. rewrite toggleCartItem_cart.
  destruct (List.find _ _) as [p|] eqn:Hfind; [|apply Hone].
  destruct isChecked; [|etransitivity; [apply entriesFor_filter_le | apply Hone]].
  destruct (existsb _ _) eqn:Hsome; [apply Hone|].
  apply find_some in Hfind. destruct Hfind as [_ Hid]. apply String.eqb_eq in Hid.
  rewrite entriesFor_app. unfold entriesFor at 2. cbn [List.filter].
  destruct (String.eqb (id (deref pg p)) pid) eqn:Hp; cbn [length]; [|specialize (Hone pid); lia].
  apply String.eqb_eq in Hp. rewrite Hid in Hp. subst pid'.
  destruct (entriesFor pid (cart (st pg))) eqn:Hcount; [lia|].
  assert (existsb (fun item => String.eqb (id item) pid) (cart (st pg)) = true) as Habs
    by (apply entriesFor_some; lia).
  rewrite Hp in Hsome. congruence.
Qed.

Lemma step_keeps_single pg pg' :
  step pg pg' ->
  (forall pid, (entriesFor pid (cart (st pg)) <= 1)%nat) ->
  forall pid, (entriesFor pid (cart (st pg')) <= 1)%nat.
Proof.
  intros Hstep Hone.
  destruct Hstep
    as [value pg | pg _ | checked pg | pg _ | pg _ | i pg _ | c dataId checked pg _ _];
    try (intros pid;
         unfold onSearchKey, onSearchInput, onShowSoldOutChange, onPrevClick, onNextClick,
           onPageClick;
         rewrite ?updateView_st; apply Hone).
  now apply toggle_keeps_single.
Qed.

Lemma initialize_cart (dateOf : string -> Js.number) (response : option (list product)) pg :
  cart (st (initialize dateOf response pg)) = cart (st pg).
Proof.
  unfold initialize, fetchProducts. destruct response; cbv iota beta zeta.
  - now rewrite updateView_st.
  - reflexivity.
Qed.

Lemma pageEvent_keeps_single (dateOf : string -> Js.number) pg pg' :
  pageEvent dateOf pg pg' ->
  (forall pid, (entriesFor pid (cart (st pg)) <= 1)%nat) ->
  forall pid, (entriesFor pid (cart (st pg')) <= 1)%nat.
Proof.
  intros [pg1 pg2 Hstep | response pg1 _] Hone.
  - now apply (step_keeps_single pg1 pg2).
  - intros pid. rewrite initialize_cart. apply Hone.
Qed.

(** No cart that the events lead to holds an identifier twice. *)
Lemma reachable_single (dateOf : string -> Js.number) (html : elements) pg :
  reachable (pageEvent dateOf) (boot html) pg ->
  forall pid, (entriesFor pid (cart (st pg)) <= 1)%nat.
Proof.
  intros Hreach. induction Hreach as [|pg pg' _ IH Hstep].
  - intros pid. cbn. lia.
  - now apply (pageEvent_keeps_single dateOf pg pg').
Qed.

(** C6. On every page that the events lead to from the page [init]
    leaves (the cart starts empty and only [toggleCartItem] writes it),
    and for every identifier that a product of the catalog carries:
    checking it twice in a row leaves exactly one entry for it, and the
    second check changes nothing in the cart; unchecking it leaves no
    entry for it; and the cart holds at most one entry per identifier. *)
Theorem toggleCartItem_single_entry (dateOf : string -> Js.number) (html : elements)
    (pg : page) (pid : string) :
  reachable (pageEvent dateOf) (boot html) pg ->
  inCatalog pid pg ->
  let once := toggleCartItem pid true pg in
  let twice := toggleCartItem pid true once in
  entriesFor pid (cart (st twice)) = 1%nat /\
  cart (st twice) = cart (st once) /\
  entriesFor pid (cart (st (toggleCartItem pid false pg))) = 0%nat /\
  (forall pid', (entriesFor pid' (cart (st pg)) <= 1)%nat).
Proof.
  intros Hreach Hcat once twice.
  pose proof (reachable_single dateOf html pg Hreach) as Hsingle.
  pose proof (toggle_on_once pid pg Hcat (Hsingle pid)) as Honce. fold once in Honce.
  assert (inCatalog pid once) as Hcat' by now apply inCatalog_toggle.
  assert (cart (st twice) = cart (st once)) as Hsame.
  { subst twice. rewrite toggleCartItem_cart.
    destruct (find_inCatalog pid once Hcat') as (p & -> & _).
    assert (existsb (fun item => String.eqb (id item) pid) (cart (st once)) = true) as ->
      by (apply entriesFor_some; lia).
    reflexivity. }
  split; [now rewrite Hsame|]. split; [exact Hsame|]. split; [|exact Hsingle].
  rewrite toggleCartItem_cart.
  destruct (find_inCatalog pid pg Hcat) as (p & -> & _). apply entriesFor_removed.
Qed.

(** C9. For an identifier that no product of the catalog carries,
    [toggleCartItem] returns at once: the page, with its cart, catalog
    and every other field, is the one it was given. *)
Theorem toggleCartItem_unknown_id (pid : string) (isChecked : bool) (pg : page) :
  (forall p, In p (products (st pg)) -> id (deref pg p) <> pid) ->
  toggleCartItem pid isChecked pg = pg.
Proof.
  intros Hnone. unfold toggleCartItem.
  destruct (List.find _ _) as [p|] eqn:Hfind; [|reflexivity].
  apply find_some in Hfind. destruct Hfind as [Hin Hid].
  apply String.eqb_eq in Hid. now destruct (Hnone p Hin).
Qed.

End Cart.

(** ** C7, C8 and C10: the editor's handlers *)

Section Editor.

Implicit Types (pg : page) (p q : loc).

Lemma closeModal_st pg : st (closeModal pg) = st pg.
Proof. reflexivity. Qed.

Lemma closeModal_heap pg : heap (closeModal pg) = heap pg.
Proof. reflexivity. Qed.

(** The store and the catalog after the handler has written an edit. *)
Lemma finishSubmit_edit (id' name' species' : string) (price' : Js.float)
    (available' : bool) (image' createdAt : string) pg p :
  editingProduct (st pg) = Some p ->
  heap (finishSubmit id' name' species' price' available' image' createdAt pg)
  = <[p := assign (heap pg !!! p) name' species' price' available' image']> (heap pg) /\
  products (st (finishSubmit id' name' species' price' available' image' createdAt pg))
  = products (st pg).
Proof.
  intros Hedit. unfold finishSubmit. rewrite Hedit. cbv beta iota zeta.
  rewrite closeModal_heap, closeModal_st, updateView_heap, updateView_st.
  split; reflexivity.
Qed.

(** The store and the catalog after a new product is submitted with no
    file chosen. *)
Lemma onsubmit_add_no_file (now : string) pg :
  editingProduct (st pg) = None -> productImage (els pg) = None ->
  heap (onsubmit now pg)
  = heap pg ++ [Product (productId (els pg)) (Js.trim (productName (els pg)))
                  (Js.trim (productSpecies (els pg))) (productPrice (els pg))
                  (productAvailable (els pg)) (Some "") now] /\
  products (st (onsubmit now pg)) = length (heap pg) :: products (st pg).
Proof.
  intros Hedit Hfile. unfold onsubmit, finishSubmit. rewrite Hedit, Hfile.
  cbv beta iota zeta.
  rewrite closeModal_heap, closeModal_st, updateView_heap, updateView_st.
  split; reflexivity.
Qed.

(** C7, at the input where the code departs from it.  The form for
    "AP00005" (record 4) is submitted with a file chosen; while the file
    is re-encoded the dialog is closed and the edit button of "AP00004"
    (record 3) is clicked; then the re-encoding ends.  Each of these is
    an event of the editor.  The handler, back from its [await], reads
    [state.editingProduct] again: the values of the submitted form go to
    record 3, whose [id] and [created_at] stay, and record 4, the one the
    form was submitted for, is left as it was. *)
Theorem edit_lands_on_other_record :
  reachable adminStep editorSix goldenOverwritten /\
  editingProduct (st barteriSubmitted) = Some 4%nat /\
  awaiting barteriSubmitted
  = [Submission "AP00005" "Barteri Broad" "Anubias" (Js.Fin 15) true "photo" "5"
       "AP00005_barteri_broad.webp"] /\
  deref editorSix 3%nat = Sample.plant "AP00004" "Golden" true "4" /\
  deref goldenOverwritten 3%nat
  = Product "AP00004" "Barteri Broad" "Anubias" (Js.Fin 15) true
      (Some "AP00005_barteri_broad.webp") "4" /\
  deref goldenOverwritten 4%nat = deref editorSix 4%nat /\
  deref editorSix 4%nat = Sample.plant "AP00005" "Barteri" true "5".
Proof.
  split; [|now vm_compute].
  apply reach_step with (pg := goldenOpened); [|now apply (admin_encoded 0 true)].
  apply reach_step with (pg := closeModal barteriSubmitted).
  2: { refine (admin_edit (createProductCard 3%nat (closeModal barteriSubmitted)) _ _).
       vm_compute. tauto. }
  apply reach_step with (pg := barteriSubmitted); [|apply admin_close].
  eapply reach_step; [|apply admin_submit].
  eapply reach_step; [|apply admin_typing].
  eapply reach_step; [apply reach_start|].
  refine (admin_edit (createProductCard 4%nat editorSix) _ _). vm_compute. tauto.
Qed.

Lemma image_falsy_placeholder p pg :
  image (deref pg p) = Some "" \/ image (deref pg p) = None ->
  imageSrc (createProductCard p pg) = PLACEHOLDER_IMAGE.
Proof. unfold createProductCard. cbn [imageSrc]. now intros [-> | ->]. Qed.

(** C8. A product added with no file chosen is put in front of the
    catalog with the empty string as its [image]; and the card of any
    product whose [image] is empty or missing shows the placeholder,
    not a path under the images directory. *)
Theorem add_without_file_placeholder (now : string) (pg : page) :
  editingProduct (st pg) = None ->
  productImage (els pg) = None ->
  let pg' := onsubmit now pg in
  (exists p : loc,
      products (st pg') = p :: products (st pg) /\
      image (deref pg' p) = Some "" /\
      imageSrc (createProductCard p pg') = PLACEHOLDER_IMAGE) /\
  (forall (q : loc) (pg0 : page),
      image (deref pg0 q) = Some "" \/ image (deref pg0 q) = None ->
      imageSrc (createProductCard q pg0) = PLACEHOLDER_IMAGE).
Proof.
  intros Hedit Hfile pg'. subst pg'.
  destruct (onsubmit_add_no_file now pg Hedit Hfile) as [Hheap Hprod].
  split; [|intros q pg0; apply image_falsy_placeholder].
  exists (length (heap pg)).
  assert (image (deref (onsubmit now pg) (length (heap pg))) = Some "") as Himg.
  { unfold deref. rewrite Hheap, list_lookup_total_middle; reflexivity. }
  split; [exact Hprod | split; [exact Himg|]].
  apply image_falsy_placeholder. now left.
Qed.

End Editor.

Section SoldOut.

Implicit Types (pg : page).

Lemma filter_insertBy_length {X : Type} (cmp : X -> X -> Js.number) (f : X -> bool)
    (x : X) (l : list X) :
  length (List.filter f (Js.insertBy cmp x l)) = length (List.filter f (x :: l)).
Proof.
  induction l as [|y l IH]; [reflexivity|].
  cbn [Js.insertBy]. destruct (Js.keepsOrder (cmp x y)); [reflexivity|].
  cbn [List.filter] in *. destruct (f y), (f x); cbn [length] in *; lia.
Qed.

(** Sorting moves elements around and so keeps every count. *)
Lemma filter_sort_length {X : Type} (cmp : X -> X -> Js.number) (f : X -> bool)
    (l : list X) :
  length (List.filter f (Js.sort cmp l)) = length (List.filter f l).
Proof.
  induction l as [|x l IH]; [reflexivity|].
  change (Js.sort cmp (x :: l)) with (Js.insertBy cmp x (Js.sort cmp l)).
  rewrite filter_insertBy_length. cbn [List.filter].
  destruct (f x); cbn [length]; now rewrite IH.
Qed.

(** Counting over the references of freshly stored records is counting
    over the records. *)
Lemma filter_fresh_length (f : product -> bool) (body h : list product) :
  length (List.filter (fun p => f ((h ++ body) !!! p)) (seq (length h) (length body)))
  = length (List.filter f body).
Proof.
  revert h. induction body as [|x body IH]; intros h; [reflexivity|].
  cbn [length seq List.filter].
  rewrite list_lookup_total_middle by reflexivity.
  specialize (IH (h ++ [x])). rewrite <- app_assoc, length_app in IH.
  cbn [length app] in IH. rewrite Nat.add_1_r in IH.
  destruct (f x); cbn [length]; now rewrite IH.
Qed.

Lemma initialize_soldoutCount (dateOf : string -> Js.number) (body : list product) pg :
  soldoutCount (st (initialize dateOf (Some body) pg))
  = Z.of_nat (length (List.filter (fun p => negb (available p)) body)).
Proof.
  unfold initialize, fetchProducts. cbv beta iota zeta. rewrite updateView_st.
  cbn [st soldoutCount Upd.state_of Upd.soldoutCount_]. f_equal.
  rewrite filter_sort_length. unfold deref. cbn [heap Upd.state_of Upd.heap_of].
  apply (filter_fresh_length (fun p => negb (available p))).
Qed.

Lemma finishSubmit_soldoutCount (id' name' species' : string) (price' : Js.float)
    (available' : bool) (image' createdAt : string) pg :
  soldoutCount (st (finishSubmit id' name' species' price' available' image' createdAt pg))
  = soldoutCount (st pg).
Proof.
  unfold finishSubmit. destruct (editingProduct (st pg)); cbv beta iota zeta;
    now rewrite closeModal_st, updateView_st.
Qed.

Lemma onsubmit_soldoutCount (now : string) pg :
  soldoutCount (st (onsubmit now pg)) = soldoutCount (st pg).
Proof.
  unfold onsubmit. destruct (productImage (els pg)); cbv beta iota zeta;
    [reflexivity | apply finishSubmit_soldoutCount].
Qed.

Lemma onEncoded_soldoutCount (k : nat) (encoded : bool) pg pg' :
  onEncoded k encoded pg = Some pg' -> soldoutCount (st pg') = soldoutCount (st pg).
Proof.
  unfold onEncoded. destruct (awaiting pg !! k) as [sub|]; [|discriminate].
  intros [= <-]. now rewrite finishSubmit_soldoutCount.
Qed.

Lemma confirmDeleteClick_soldoutCount pg pg' :
  confirmDeleteClick pg = Some pg' -> soldoutCount (st pg') = soldoutCount (st pg).
Proof.
  unfold confirmDeleteClick. destruct (deleteTarget (st pg)); [|discriminate].
  intros [= <-]. now rewrite closeModal_st, updateView_st.
Qed.

Lemma adminStep_soldoutCount pg pg' :
  adminStep pg pg' -> soldoutCount (st pg') = soldoutCount (st pg).
Proof.
  intros Hstep.
  destruct Hstep as
    [value pg | pg _ | checked pg | pg _ | pg _ | i pg _ | pg | c pg _ | c pg _
    | i n s p a f pg | now pg | k encoded pg pg' Hend | pg pg' Hdel | pg];
    try (unfold onSearchInput, onShowSoldOutChange, onPrevClick, onNextClick, onPageClick;
         now rewrite updateView_st);
    try reflexivity.
  - apply onsubmit_soldoutCount.
  - now apply (onEncoded_soldoutCount k encoded).
  - now apply confirmDeleteClick_soldoutCount.
Qed.

(** C10. [initialize] sets [soldoutCount] to the number of unavailable
    products of the loaded catalog; no event of the editor (submitting
    the form, confirming a deletion, or any other) changes it; so after
    a sold-out product is deleted, or a product is edited to sold out,
    the total in the "Showing X of Y" line is not the number of products
    that can be listed. *)
Theorem soldoutCount_set_once :
  (forall dateOf body pg,
      soldoutCount (st (initialize dateOf (Some body) pg))
      = Z.of_nat (length (List.filter (fun p => negb (available p)) body))) /\
  (forall pg pg', adminStep pg pg' -> soldoutCount (st pg') = soldoutCount (st pg)) /\
  (option_map (fun pg => (length (shown pg), queryInfoElements (els pg)))
     (confirmDeleteClick (openDeleteModal 1%nat editor))
   = Some (1%nat, "Page 1 | Showing 1 of 0 item(s)")) /\
  (let form := Upd.form_ "AP00001" "Nana" "Anubias" (Js.Fin 12) false None in
   let edited := onsubmit "2" (Upd.elements_of form (openEditModal 0%nat editor)) in
   (length (shown edited), queryInfoElements (els edited))
   = (0%nat, "Page 1 | Showing 0 of 1 item(s)")).
Proof.
  split; [exact initialize_soldoutCount | split; [exact adminStep_soldoutCount|]].
  split; vm_compute; reflexivity.
Qed.

End SoldOut.

(** ** Worked instances

    Each theorem above that has a premise is used once here, on the
    sample catalogs. *)

Section Instances.


(** The editor's catalog holds AP00003 and AP00001: both suffixes are
    integers, and the next identifier is AP00004. *)
Lemma getNextId_spec_witness :
  getNextId editor = "AP00004" /\
  exists m : Z,
    (exists p, In p (products (st editor)) /\ suffixOf editor p = Js.Num m) /\
    (forall p n, In p (products (st editor)) -> suffixOf editor p = Js.Num n -> n <= m) /\
    getNextId editor
    = "AP" +:+ zeros (5 - String.length (Js.toString (Js.Num (1 + m))))
           +:+ Js.toString (Js.Num (1 + m)).
Proof.
  split.
  - apply (proj1 (proj2 (getNextId_spec editor))). apply perm_swap.
  - apply (proj2 (proj2 (getNextId_spec editor))).
    + discriminate.
    + intros p Hp. vm_compute in Hp.
      repeat (destruct Hp as [<- | Hp]; [vm_compute; discriminate|]). destruct Hp.
    + intros p n Hp. vm_compute in Hp.
      repeat (destruct Hp as [<- | Hp];
              [intros Hn; vm_compute in Hn; injection Hn as <-; reflexivity|]).
      destruct Hp.
Defined.

(** On the page the arrival of the catalog leaves, checking AP00002
    twice gives one entry. *)
Lemma toggleCartItem_single_entry_witness :
  entriesFor "AP00002"
    (cart (st (toggleCartItem "AP00002" true (toggleCartItem "AP00002" true arrived))))
  = 1%nat.
Proof.
  apply (toggleCartItem_single_entry Sample.dateOf Sample.shipped arrived "AP00002").
  - apply reach_step with (pg := boot Sample.shipped); [apply reach_start|].
    now apply event_loaded.
  - exists 1%nat. split; [vm_compute; tauto | reflexivity].
Defined.

Lemma add_without_file_placeholder_witness :
  exists p : loc,
    products (st (onsubmit "7" (openAddModal editor))) = p :: products (st (openAddModal editor)) /\
    image (deref (onsubmit "7" (openAddModal editor)) p) = Some "" /\
    imageSrc (createProductCard p (onsubmit "7" (openAddModal editor))) = PLACEHOLDER_IMAGE.
Proof.
  apply (proj1 (add_without_file_placeholder "7" (openAddModal editor) eq_refl eq_refl)).
Defined.

Lemma toggleCartItem_unknown_id_witness :
  toggleCartItem "AP00009" true shop = shop.
Proof.
  apply (toggleCartItem_unknown_id "AP00009" true shop).
  intros p Hp. vm_compute in Hp.
  repeat (destruct Hp as [<- | Hp]; [vm_compute; discriminate|]). destruct Hp.
Defined.

Lemma soldoutCount_set_once_witness :
  soldoutCount (st (onsubmit "7" (openAddModal editor))) = 1.
Proof.
  rewrite (proj1 (proj2 soldoutCount_set_once) (openAddModal editor)
             (onsubmit "7" (openAddModal editor)) (admin_submit "7" (openAddModal editor))).
  reflexivity.
Defined.

End Instances.


(** * Further properties of the scripts *)

(** ** Page sizes and the page buttons *)

Section PageSizes.

Context {A : Type}.
Implicit Types (items : list A) (pg : page).

(** No slice of four consecutive positions is longer than four. *)
Lemma slice_four_length (a : Z) items :
  (length (Js.slice a (a + 4) items) <= 4)%nat.
Proof.
  unfold Js.slice. cbv zeta. rewrite length_take.
  destruct (Z.ltb_spec a 0), (Z.ltb_spec (a + 4) 0); lia.
Qed.

(** The size of the page [cur] of a list, for [cur] from 1 on. *)
Lemma getPaginatedProducts_size items pg :
  1 <= currentPage (st pg) ->
  Z.of_nat (length (getPaginatedProducts items pg))
  = Z.max 0 (Z.min 4 (Z.of_nat (length items) - 4 * (currentPage (st pg) - 1))).
Proof.
  intros Hcur. unfold getPaginatedProducts, ITEMS_PER_PAGE.
  replace ((currentPage (st pg) - 1) * 4)
    with (Z.of_nat (Z.to_nat (4 * (currentPage (st pg) - 1)))) by lia.
  rewrite (slice_take_drop _ 4), length_take, length_drop. lia.
Qed.

(** X4.  Page sizes.  A page never has more than four items; each of the
    pages 1..total has [min 4 (n - 4 (cur - 1))] items, which is at least
    one, so all pages but the last are full; page 0 and the pages after
    the last are empty. *)
Theorem getPaginatedProducts_length (items : list A) (pg : page) :
  let n := Z.of_nat (length items) in
  let cur := currentPage (st pg) in
  let shownNow := getPaginatedProducts items pg in
  (length shownNow <= 4)%nat /\
  (1 <= cur <= getTotalPages n ->
     Z.of_nat (length shownNow) = Z.min 4 (n - 4 * (cur - 1)) /\
     (1 <= length shownNow)%nat) /\
  (cur = 0 \/ getTotalPages n < cur -> shownNow = []).
Proof.
  intros n cur shownNow. subst shownNow.
  pose proof (getTotalPages_ceiling n) as Hceil. unfold ITEMS_PER_PAGE in Hceil.
  split; [apply slice_four_length | split].
  - intros Hcur. rewrite getPaginatedProducts_size by lia. fold n cur.
    assert (Z.of_nat (length (getPaginatedProducts items pg))
            = Z.max 0 (Z.min 4 (n - 4 * (cur - 1)))) as Hsize
      by (apply getPaginatedProducts_size; lia).
    lia.
  - intros [Hzero | Hpast]; apply length_zero_iff_nil.
    + unfold getPaginatedProducts, Js.slice, ITEMS_PER_PAGE. fold cur. rewrite Hzero.
      cbv zeta. rewrite length_take.
      change ((0 - 1) * 4 <? 0) with true. change ((0 - 1) * 4 + 4 <? 0) with false.
      cbv iota. lia.
    + assert (1 <= cur) as Hcur by lia.
      pose proof (getPaginatedProducts_size items pg Hcur) as Hsize. fold n cur in Hsize.
      lia.
Qed.

End PageSizes.

Section PageButtons.

Implicit Types (pg : page).

(** X5.  The page buttons for any current page.  Whatever [currentPage] holds,
    in range or not, [render] draws [min totalPages 5] buttons with
    consecutive numbers that all lie within 1..totalPages. *)
Theorem render_page_buttons (totalItems : Z) (pg : page) :
  0 <= totalItems ->
  let total := getTotalPages totalItems in
  exists first : Z,
    pageNumbersContainer (els (render totalItems pg)) = seqZ first (Z.min total 5) /\
    1 <= first /\ first + Z.min total 5 <= total + 1.
Proof.
  intros Hitems total.
  pose proof (getTotalPages_ceiling totalItems) as Hceil. unfold ITEMS_PER_PAGE in Hceil.
  fold total in Hceil.
  unfold render. fold total. cbn [els pageNumbersContainer Upd.elements_of Upd.pager_].
  exists (start (calculatePageRange total pg)).
  unfold calculatePageRange. rewrite half_of_window. unfold MAX_VISIBLE_PAGES.
  destruct (Z.leb_spec total 5) as [Hsmall | Hbig]; cbn [start end_].
  - split; [f_equal|]; lia.
  - destruct (Z.ltb_spec
               (Z.min total (Z.max 1 (currentPage (st pg) - 2) + 5 - 1)
                - Z.max 1 (currentPage (st pg) - 2)) (5 - 1));
      (split; [f_equal|]; lia).
Qed.

End PageButtons.

(** ** Narrowing the filter *)

Section Narrowing.

Implicit Types (pg : page).

Lemma isSubstringOf_trans (a b c : string) :
  isSubstringOf a b -> isSubstringOf b c -> isSubstringOf a c.
Proof.
  intros (x & y & ->) (u & v & ->). exists (u +:+ x), (y +:+ v).
  now rewrite !append_assoc.
Qed.

Lemma filter_sublist_impl {X : Type} (f g : X -> bool) (l : list X) :
  (forall x, f x = true -> g x = true) -> sublist (List.filter f l) (List.filter g l).
Proof.
  intros Himpl. induction l as [|x l IH]; cbn [List.filter]; [constructor|].
  destruct (f x) eqn:Hf.
  - rewrite (Himpl x Hf). now constructor.
  - destruct (g x); [now constructor | exact IH].
Qed.

Lemma filter_filter_and {X : Type} (f g : X -> bool) (l : list X) :
  List.filter g (List.filter f l) = List.filter (fun x => f x && g x) l.
Proof.
  induction l as [|x l IH]; [reflexivity|]. cbn [List.filter].
  destruct (f x); cbn [List.filter andb]; [destruct (g x)|]; now rewrite IH.
Qed.

(** X3.  Narrowing.  With sold-out products hidden the listing is the
    available part of the listing that shows them; and a keyword whose
    lower-case form contains the lower-case form of another lists a
    subsequence of what that other keyword lists. *)
Theorem getFilteredProducts_narrows :
  (forall k pg,
      getFilteredProducts k false pg
      = List.filter (fun p => available (deref pg p)) (getFilteredProducts k true pg)) /\
  (forall k k' s pg,
      isSubstringOf (Js.toLowerCase k) (Js.toLowerCase k') ->
      sublist (getFilteredProducts k' s pg) (getFilteredProducts k s pg)).
Proof.
  split.
  - intros k pg. unfold getFilteredProducts. rewrite filter_filter_and.
    apply List.filter_ext. intros p. cbv zeta.
    now rewrite orb_false_l, orb_true_l, andb_true_r.
  - intros k k' s pg Hsub. apply filter_sublist_impl. intros p. cbv zeta.
    rewrite !andb_true_iff. intros [Hm Hshow]. split; [|exact Hshow].
    apply existsb_exists in Hm. destruct Hm as (field & Hin & Hinc).
    apply existsb_exists. exists field. split; [exact Hin|].
    apply includes_substring. apply includes_substring in Hinc.
    exact (isSubstringOf_trans _ _ _ Hsub Hinc).
Qed.

End Narrowing.

(** ** More on the cart *)

Section CartEntries.

Implicit Types (pg : page) (items : list product) (pid : string).

Lemma filter_other_id pid pid' items :
  pid' <> pid ->
  List.filter (fun item => String.eqb (id item) pid')
    (List.filter (fun item => negb (String.eqb (id item) pid)) items)
  = List.filter (fun item => String.eqb (id item) pid') items.
Proof.
  intros Hne. induction items as [|x items IH]; [reflexivity|].
  cbn [List.filter]. destruct (String.eqb_spec (id x) pid) as [Hx | Hx]; cbn [negb List.filter].
  - destruct (String.eqb_spec (id x) pid') as [Hx' | _]; [congruence | exact IH].
  - destruct (String.eqb (id x) pid'); now rewrite IH.
Qed.

Lemma filter_absent_id pid items :
  entriesFor pid items = 0%nat ->
  List.filter (fun item => negb (String.eqb (id item) pid)) items = items.
Proof.
  unfold entriesFor. induction items as [|x items IH]; [reflexivity|].
  cbn [List.filter]. destruct (String.eqb (id x) pid); cbn [negb length]; [discriminate|].
  intros H. now rewrite IH.
Qed.

(** X11.  Other entries.  A toggle for one identifier, on or off, found in
    the catalog or not, leaves the cart's entries for every other
    identifier as they were, in their order. *)
Theorem toggleCartItem_other_entries (pid pid' : string) (isChecked : bool) (pg : page) :
  pid' <> pid ->
  List.filter (fun item => String.eqb (id item) pid')
    (cart (st (toggleCartItem pid isChecked pg)))
  = List.filter (fun item => String.eqb (id item) pid') (cart (st pg)).
Proof.
  intros Hne. rewrite toggleCartItem_cart.
  destruct (List.find _ _) as [p|] eqn:Hfind; [|reflexivity].
  apply find_some in Hfind. destruct Hfind as [_ Hid]. apply String.eqb_eq in Hid.
  destruct isChecked; [destruct (existsb _ _); [reflexivity|] | now apply filter_other_id].
  rewrite List.filter_app. cbn [List.filter]. rewrite Hid.
  destruct (String.eqb_spec pid pid') as [Heq | _]; [congruence | apply app_nil_r].
Qed.

Lemma find_first {X : Type} (f : X -> bool) (l : list X) (x : X) :
  List.find f l = Some x ->
  exists before after : list X,
    l = before ++ x :: after /\ (forall y, In y before -> f y = false) /\ f x = true.
Proof.
  induction l as [|y l IH]; [discriminate|]. cbn [List.find].
  destruct (f y) eqn:Hy.
  - intros [= <-]. exists [], l. now repeat split.
  - intros Hfind. destruct (IH Hfind) as (before & after & -> & Hnone & Hx).
    exists (y :: before), after. repeat split; [|exact Hx].
    intros z [<- | Hz]; [exact Hy | now apply Hnone].
Qed.

(** X12.  Check, then uncheck.  For a product of the catalog that the cart
    does not hold, checking appends a copy of the catalog's first record
    with that identifier at the end of the cart, and unchecking it
    afterwards gives back the cart as it was. *)
Theorem toggleCartItem_on_off (pid : string) (pg : page) :
  inCatalog pid pg ->
  entriesFor pid (cart (st pg)) = 0%nat ->
  exists (p : loc) (before after : list loc),
    products (st pg) = before ++ p :: after /\
    (forall q, In q before -> id (deref pg q) <> pid) /\
    id (deref pg p) = pid /\
    cart (st (toggleCartItem pid true pg)) = cart (st pg) ++ [deref pg p] /\
    cart (st (toggleCartItem pid false (toggleCartItem pid true pg))) = cart (st pg).
Proof.
  intros Hcat Hnone.
  destruct (find_inCatalog pid pg Hcat) as (p & Hfind & Hid).
  assert (existsb (fun item => String.eqb (id item) pid) (cart (st pg)) = false) as Hsome.
  { destruct (existsb _ _) eqn:He; [|reflexivity]. apply entriesFor_some in He. lia. }
  assert (cart (st (toggleCartItem pid true pg)) = cart (st pg) ++ [deref pg p]) as Hon
    by (now rewrite toggleCartItem_cart, Hfind, Hsome).
  destruct (find_first _ _ _ Hfind) as (before & after & Hsplit & Hbefore & _).
  exists p, before, after. split; [exact Hsplit|].
  split; [intros q Hq; now apply String.eqb_neq, Hbefore|].
  split; [exact Hid|]. split; [exact Hon|].
  rewrite toggleCartItem_cart.
  destruct (find_inCatalog pid _ (inCatalog_toggle pid pid true pg Hcat)) as (q & -> & _).
  rewrite Hon, List.filter_app. cbn [List.filter]. rewrite Hid, String.eqb_refl.
  cbn [negb]. rewrite app_nil_r. now apply filter_absent_id.
Qed.

End CartEntries.

(** ** Loading the catalog *)

Section Loading.

Implicit Types (pg : page).

Lemma insertBy_Permutation {X : Type} (cmp : X -> X -> Js.number) (x : X) (l : list X) :
  Permutation (Js.insertBy cmp x l) (x :: l).
Proof.
  induction l as [|y l IH]; cbn [Js.insertBy]; [reflexivity|].
  destruct (Js.keepsOrder (cmp x y)); [reflexivity|].
  rewrite IH. apply perm_swap.
Qed.

Lemma sort_Permutation {X : Type} (cmp : X -> X -> Js.number) (l : list X) :
  Permutation (Js.sort cmp l) l.
Proof.
  induction l as [|x l IH]; [reflexivity|].
  change (Js.sort cmp (x :: l)) with (Js.insertBy cmp x (Js.sort cmp l)).
  now rewrite insertBy_Permutation, IH.
Qed.

(** The references of freshly stored records read back the records. *)
Lemma map_fresh (body h : list product) :
  map (fun p => (h ++ body) !!! p) (seq (length h) (length body)) = body.
Proof.
  revert h. induction body as [|x body IH]; intros h; [reflexivity|].
  cbn [length seq map]. rewrite list_lookup_total_middle by reflexivity. f_equal.
  specialize (IH (h ++ [x])). rewrite <- app_assoc, length_app in IH.
  cbn [length app] in IH. now rewrite Nat.add_1_r in IH.
Qed.

Section Descending.

Context {X : Type} (key : X -> Js.number).


Lemma insertBy_descending (x : X) (l : list X) :
  (exists z, key x = Js.Num z) ->
  Forall (fun a => exists z, key a = Js.Num z) l ->
  StronglySorted (keyAbove key) l -> StronglySorted (keyAbove key) (Js.insertBy (largerFirst key) x l).
Proof.
  intros [z Hz] Hvalid Hsorted. induction Hsorted as [|y l Hsorted IH Hall].
  - repeat constructor.
  - apply Forall_cons in Hvalid. destruct Hvalid as [[w Hw] Hvalid].
    cbn [Js.insertBy]. unfold largerFirst at 1. rewrite Hw, Hz. cbn [Js.sub Js.keepsOrder].
    destruct (Z.leb_spec (w - z) 0) as [Hle | Hgt].
    + constructor; [now constructor|]. constructor.
      * exists z, w. repeat split; [assumption.. | lia].
      * eapply Forall_impl; [exact Hall|].
        intros a (x1 & y1 & Hx1 & Hy1 & Hle1). exists z, y1.
        repeat split; [assumption.. |]. rewrite Hw in Hx1. injection Hx1 as <-. lia.
    + constructor; [now apply IH|].
      rewrite insertBy_Permutation. constructor; [|exact Hall].
      exists w, z. repeat split; [assumption.. | lia].
Qed.

Lemma sort_descending (l : list X) :
  Forall (fun a => exists z, key a = Js.Num z) l ->
  StronglySorted (keyAbove key) (Js.sort (largerFirst key) l).
Proof.
  induction l as [|x l IH]; intros Hvalid; [constructor|].
  apply Forall_cons in Hvalid. destruct Hvalid as [Hx Hvalid].
  change (Js.sort (largerFirst key) (x :: l)) with (Js.insertBy (largerFirst key) x (Js.sort (largerFirst key) l)).
  apply insertBy_descending; [exact Hx | | now apply IH].
  now rewrite sort_Permutation.
Qed.

End Descending.

Lemma initialize_heap (dateOf : string -> Js.number) (body : list product) pg :
  heap (initialize dateOf (Some body) pg) = heap pg ++ body.
Proof.
  unfold initialize, fetchProducts. cbv beta iota zeta. now rewrite updateView_heap.
Qed.

Lemma initialize_products (dateOf : string -> Js.number) (body : list product) pg :
  products (st (initialize dateOf (Some body) pg))
  = Js.sort (fun a b => Js.sub (dateOf (created_at ((heap pg ++ body) !!! b)))
                               (dateOf (created_at ((heap pg ++ body) !!! a))))
      (seq (length (heap pg)) (length body)).
Proof.
  unfold initialize, fetchProducts. cbv beta iota zeta. now rewrite updateView_st.
Qed.

Lemma initialize_records (dateOf : string -> Js.number) (body : list product) pg :
  Permutation
    (map (deref (initialize dateOf (Some body) pg))
       (products (st (initialize dateOf (Some body) pg))))
    body.
Proof.
  unfold deref. rewrite initialize_heap, initialize_products, sort_Permutation.
  now rewrite map_fresh.
Qed.

(** X1.  Loading.  After a successful load the catalog refers to exactly the
    loaded records, each once, whatever the catalog held before; and when
    every [created_at] is a valid date the catalog is in descending order
    of date. *)
Theorem initialize_newest_first (dateOf : string -> Js.number) (body : list product)
    (pg : page) :
  let pg' := initialize dateOf (Some body) pg in
  Permutation (map (deref pg') (products (st pg'))) body /\
  NoDup (products (st pg')) /\
  ((forall r, In r body -> dateOf (created_at r) <> Js.NaN) ->
   StronglySorted (newerOrSame dateOf pg') (products (st pg'))).
Proof.
  intros pg'. subst pg'. split; [apply initialize_records|].
  unfold newerOrSame, dateKey, deref.
  rewrite initialize_heap, initialize_products.
  split.
  - rewrite sort_Permutation. apply NoDup_ListNoDup, List.seq_NoDup.
  - intros Hdates.
    apply (sort_descending (fun p => dateOf (created_at ((heap pg ++ body) !!! p)))).
    apply Forall_forall. intros p Hp.
    apply list_elem_of_In in Hp.
    pose proof (in_map (fun p => (heap pg ++ body) !!! p) _ _ Hp) as Hin.
    rewrite map_fresh in Hin. specialize (Hdates _ Hin).
    destruct (dateOf _) as [|z]; [contradiction | now exists z].
Qed.

End Loading.

(** ** What stays true on the shopper page *)

Section ShopInvariants.

Implicit Types (pg : page).

Lemma updateView_cartBox pg :
  cartCount (els (updateView pg)) = cartCount (els pg) /\
  totalAmount (els (updateView pg)) = totalAmount (els pg) /\
  whatsappBtn (els (updateView pg)) = whatsappBtn (els pg).
Proof.
  unfold updateView, updateFilterInfo, render, renderProducts, showNoProducts.
  now destruct (_ =? 0).
Qed.

Lemma cartBoxOk_ext pg pg' :
  cart (st pg') = cart (st pg) -> cartCount (els pg') = cartCount (els pg) ->
  totalAmount (els pg') = totalAmount (els pg) ->
  whatsappBtn (els pg') = whatsappBtn (els pg) ->
  cartBoxOk pg -> cartBoxOk pg'.
Proof. unfold cartBoxOk. now intros -> -> -> ->. Qed.

Lemma updateView_cartBoxOk pg : cartBoxOk pg -> cartBoxOk (updateView pg).
Proof.
  destruct (updateView_cartBox pg) as (Hn & Ht & Hw).
  apply cartBoxOk_ext; [now rewrite updateView_st | assumption..].
Qed.

Lemma toggleCartItem_cartBoxOk (pid : string) (isChecked : bool) pg :
  cartBoxOk pg -> cartBoxOk (toggleCartItem pid isChecked pg).
Proof.
  intros Hok. unfold toggleCartItem. destruct (List.find _ _); [|exact Hok].
  unfold cartBoxOk, updateCart. now repeat split.
Qed.

Lemma step_cartBoxOk pg pg' : step pg pg' -> cartBoxOk pg -> cartBoxOk pg'.
Proof.
  intros Hstep Hok.
  destruct Hstep
    as [value pg | pg _ | checked pg | pg _ | pg _ | i pg _ | c dataId checked pg _ _];
    try (apply updateView_cartBoxOk; exact Hok).
  - exact Hok.
  - now apply toggleCartItem_cartBoxOk.
Qed.

Lemma init_cartBoxOk (dateOf : string -> Js.number) (response : option (list product))
    (html : elements) :
  cartBoxOk (init dateOf response html).
Proof.
  unfold init, initialize, fetchProducts. destruct response; cbv beta iota zeta.
  - apply updateView_cartBoxOk. now repeat split.
  - now repeat split.
Qed.

(** X9.  The cart summary.  On every page that the listeners lead to from
    [init], with the load failed or not, the count shown is the number of
    cart entries, the amount shown is the sum of their prices, and the
    order button is disabled exactly when the cart is empty. *)
Theorem cart_summary_agrees (dateOf : string -> Js.number)
    (response : option (list product)) (html : elements) (pg : page) :
  reachable step (init dateOf response html) pg ->
  cartCount (els pg) = Z.of_nat (length (cart (st pg))) /\
  totalAmount (els pg)
  = foldl (fun sum item => Js.fadd sum (price item)) (Js.Fin 0) (cart (st pg)) /\
  (whatsappBtn (els pg) = true <-> cart (st pg) = []).
Proof.
  intros Hreach.
  assert (cartBoxOk pg) as (Hn & Ht & Hw).
  { induction Hreach as [|pg pg' _ IH Hstep]; [apply init_cartBoxOk|].
    exact (step_cartBoxOk pg pg' Hstep IH). }
  split; [exact Hn | split; [exact Ht|]].
  rewrite Hw, Z.eqb_eq. destruct (cart (st pg)); cbn [length]; split; (discriminate || lia || reflexivity).
Qed.

Lemma step_keeps_catalog pg pg' :
  step pg pg' ->
  heap pg' = heap pg /\ products (st pg') = products (st pg) /\
  soldoutCount (st pg') = soldoutCount (st pg).
Proof.
  intros Hstep.
  destruct Hstep
    as [value pg | pg _ | checked pg | pg _ | pg _ | i pg _ | c dataId checked pg _ _];
    try (unfold onSearchInput, onShowSoldOutChange, onPrevClick, onNextClick, onPageClick;
         rewrite updateView_heap, updateView_st; now repeat split).
  - now repeat split.
  - destruct (toggleCartItem_frame dataId checked pg) as (H1 & H2 & _ & H4 & _).
    now repeat split.
Qed.

(** X8.  The catalog is read-only for the shopper.  No run of shopper events,
    from whatever page, changes the store, the catalog list or
    [soldoutCount]. *)
Theorem shop_keeps_catalog (first pg : page) :
  reachable step first pg ->
  heap pg = heap first /\ products (st pg) = products (st first) /\
  soldoutCount (st pg) = soldoutCount (st first).
Proof.
  intros Hreach. induction Hreach as [|pg pg' _ (Hh & Hp & Hs) Hstep]; [now repeat split|].
  rewrite <- Hh, <- Hp, <- Hs. now apply step_keeps_catalog.
Qed.

End ShopInvariants.

Section Listing.

Implicit Types (pg : page).

Lemma source_createProductCard (p : loc) pg : source (createProductCard p pg) = p.
Proof. reflexivity. Qed.

Lemma map_source_cards (items : list loc) pg :
  map source (map (fun p => createProductCard p pg) items) = items.
Proof. rewrite map_map. apply map_id. Qed.


(** What [updateView] puts into the list area. *)
Lemma updateView_listing pg :
  map source (productsContainer (els (updateView pg))) = getPaginatedProducts (shown pg) pg /\
  queryExceptionContainer (els (updateView pg))
  = if Z.of_nat (length (getPaginatedProducts (shown pg) pg)) =? 0
    then Shown "Plant not found" "Try other keyword or show sold out items."
    else Hidden.
Proof.
  unfold updateView, updateFilterInfo, render, renderProducts, showNoProducts.
  fold (shown pg). destruct (_ =? 0) eqn:Hempty.
  - split; [|reflexivity]. cbn. apply Z.eqb_eq in Hempty.
    symmetry. apply length_zero_iff_nil. lia.
  - split; [|reflexivity].
    cbn [els productsContainer Upd.elements_of Upd.queryInfoElements_ Upd.pager_ Upd.listing_].
    apply map_source_cards.
Qed.










End Listing.

Section CartContents.

Implicit Types (pg : page).

(** A toggle keeps the cart made of copies of catalog products. *)
Lemma toggleCartItem_cartFromCatalog (pid : string) (isChecked : bool) pg :
  cartFromCatalog pg -> cartFromCatalog (toggleCartItem pid isChecked pg).
Proof.
  intros Hcart item.
  destruct (toggleCartItem_frame pid isChecked pg) as (Hh & Hp & _).
  unfold deref. rewrite Hh, Hp, toggleCartItem_cart. fold (deref pg).
  destruct (List.find _ _) as [q|] eqn:Hfind; [|apply Hcart].
  apply find_some in Hfind. destruct Hfind as [Hq _].
  destruct isChecked.
  - destruct (existsb _ _); [apply Hcart|].
    intros Hin. apply in_app_or in Hin. destruct Hin as [Hin | [<- | []]]; [now apply Hcart|].
    now exists q.
  - intros Hin. apply filter_In in Hin. now apply Hcart.
Qed.

Lemma step_cartFromCatalog pg pg' :
  step pg pg' -> cartFromCatalog pg -> cartFromCatalog pg'.
Proof.
  intros Hstep Hcart.
  destruct Hstep
    as [value pg | pg _ | checked pg | pg _ | pg _ | i pg _ | c dataId checked pg _ _];
    try exact Hcart;
    try (intros item;
         unfold onSearchInput, onShowSoldOutChange, onPrevClick, onNextClick, onPageClick,
           deref;
         rewrite updateView_st, updateView_heap; apply Hcart).
  now apply toggleCartItem_cartFromCatalog.
Qed.

Lemma step_keeps_empty_cart pg pg' :
  step pg pg' -> products (st pg) = [] -> cart (st pg) = [] ->
  products (st pg') = [] /\ cart (st pg') = [] /\ isLoading (st pg') = isLoading (st pg).
Proof.
  intros Hstep Hnone Hcart.
  destruct Hstep
    as [value pg | pg _ | checked pg | pg _ | pg _ | i pg _ | c dataId checked pg _ _];
    try (unfold onSearchKey, onSearchInput, onShowSoldOutChange, onPrevClick, onNextClick,
           onPageClick;
         rewrite ?updateView_st; now repeat split).
  unfold toggleCartItem. rewrite Hnone. now repeat split.
Qed.

(** X10.  Cart contents.  Every entry of every cart that the events lead to
    from the page [init] leaves is a copy of a product of the catalog.
    [toggleCartItem] itself does not look at [available]: called with
    the identifier of a sold-out product that the cart does not hold, it
    puts that product in the cart. *)
Theorem cart_holds_catalog_copies :
  (forall (dateOf : string -> Js.number) (html : elements) (pg : page),
      reachable (pageEvent dateOf) (boot html) pg ->
      forall item : product,
        In item (cart (st pg)) ->
        exists p : loc, In p (products (st pg)) /\ deref pg p = item) /\
  (forall (pid : string) (pg : page) (p : loc),
      List.find (fun q => String.eqb (id (deref pg q)) pid) (products (st pg)) = Some p ->
      available (deref pg p) = false ->
      entriesFor pid (cart (st pg)) = 0%nat ->
      cart (st (toggleCartItem pid true pg)) = cart (st pg) ++ [deref pg p]).
Proof.
  split.
  - intros dateOf html pg Hreach.
    assert (cartFromCatalog pg /\
            (isLoading (st pg) = true -> products (st pg) = [] /\ cart (st pg) = []))
      as [Hcart _]; [|exact Hcart].
    induction Hreach as [|pg pg' _ [Hcart Hwait] Hevent].
    + split; [intros item []|]. intros _. now split.
    + destruct Hevent as [pg pg' Hstep | response pg Hload].
      * split; [exact (step_cartFromCatalog pg pg' Hstep Hcart)|].
        intros Hload'. destruct (isLoading (st pg)) eqn:Hload.
        -- destruct (Hwait eq_refl) as [Hnone Hempty].
           destruct (step_keeps_empty_cart pg pg' Hstep Hnone Hempty) as (H1 & H2 & _).
           now split.
        -- exfalso.
           destruct Hstep
             as [value pg | pg _ | checked pg | pg _ | pg _ | i pg _
                | c dataId checked pg _ _];
             try (unfold onSearchKey, onSearchInput, onShowSoldOutChange, onPrevClick,
                    onNextClick, onPageClick in Hload';
                  rewrite ?updateView_st in Hload'; cbn in Hload'; congruence).
           rewrite toggleCartItem_isLoading in Hload'. congruence.
      * destruct (Hwait Hload) as [_ Hempty]. split.
        -- intros item. rewrite initialize_cart, Hempty. intros [].
        -- unfold initialize, fetchProducts.
           destruct response; cbv beta iota zeta; rewrite ?updateView_st; cbn; discriminate.
  - intros pid pg p Hfind _ Hnone. rewrite toggleCartItem_cart, Hfind.
    destruct (existsb _ _) eqn:He; [|reflexivity]. apply entriesFor_some in He. lia.
Qed.

End CartContents.

(** ** Printing and parsing identifier numbers *)

Section Numerals.

Import Decimal.

Lemma parseDigits_acc (d : uint) (acc : positive) :
  Js.parseDigits 10 (Z.pos acc) true (NilEmpty.string_of_uint d)
  = Some (Z.pos (Pos.of_uint_acc d acc)).
Proof.
  revert acc. induction d; intros acc; cbn [NilEmpty.string_of_uint Pos.of_uint_acc];
    [reflexivity | ..];
    cbn [Js.parseDigits];
    match goal with
    | |- context [Js.digitValue ?c] =>
        let v := eval vm_compute in (Js.digitValue c) in
        change (Js.digitValue c) with v
    end;
    cbv iota; match goal with |- context [?k <? 10] => change (k <? 10) with true end;
    cbv iota; rewrite <- IHd; f_equal; lia.
Qed.

Lemma parseDigits_uint (d : uint) (seen : bool) :
  seen = true \/ d <> Nil ->
  Js.parseDigits 10 0 seen (NilEmpty.string_of_uint d) = Some (Z.of_N (Pos.of_uint d)).
Proof.
  revert seen. induction d; intros seen Hseen;
    cbn [NilEmpty.string_of_uint Pos.of_uint];
    [destruct Hseen as [-> | Hne]; [reflexivity | now destruct Hne] | ..];
    cbn [Js.parseDigits];
    match goal with
    | |- context [Js.digitValue ?c] =>
        let v := eval vm_compute in (Js.digitValue c) in
        change (Js.digitValue c) with v
    end;
    cbv iota; match goal with |- context [?k <? 10] => change (k <? 10) with true end;
    cbv iota; cbn [Z.mul Z.add Z.of_N];
    [apply IHd; now left | apply parseDigits_acc ..].
Qed.

Lemma string_of_zeroPadded (n : nat) (d : uint) :
  NilEmpty.string_of_uint (zeroPadded n d) = zeros n +:+ NilEmpty.string_of_uint d.
Proof.
  induction n as [|n IH]; [reflexivity|].
  cbn [zeroPadded zeros NilEmpty.string_of_uint]. now rewrite IH, append_cons.
Qed.

Lemma of_uint_zeroPadded (n : nat) (d : uint) :
  Pos.of_uint (zeroPadded n d) = Pos.of_uint d.
Proof. induction n as [|n IH]; [reflexivity | exact IH]. Qed.

(** Reading a numeral that is not empty, followed by anything that does
    not start with a letter or a digit. *)
Lemma parseInt_uint (d : uint) :
  d <> Nil -> Js.parseInt (NilEmpty.string_of_uint d) = Js.Num (Z.of_N (Pos.of_uint d)).
Proof.
  intros Hne.
  assert (forall c t, NilEmpty.string_of_uint d = String c t ->
          Js.isWhiteSpace c = false -> c <> "-"%char -> c <> "+"%char ->
          (c = "0"%char -> forall x t', t = String x t' -> x <> "x"%char /\ x <> "X"%char) ->
          Js.parseInt (String c t) = Js.Num (Z.of_N (Pos.of_uint d))) as Hgen.
  { intros c t Hs Hw Hminus Hplus Hx. unfold Js.parseInt. cbn [Js.trimStart]. rewrite Hw.
    assert (match String c t with
            | String "-" t0 => (-1, t0)
            | String "+" t0 => (1, t0)
            | _ => (1, String c t)
            end = (1, String c t)) as ->.
    { destruct c as [[] [] [] [] [] [] [] []]; try reflexivity; congruence. }
    assert (match String c t with
            | String "0" (String "x" t0) => (16, t0)
            | String "0" (String "X" t0) => (16, t0)
            | _ => (10, String c t)
            end = (10, String c t)) as ->.
    { destruct (Ascii.eqb_spec c "0") as [-> | Hc].
      - destruct t as [|x t']; [reflexivity|].
        destruct (Hx eq_refl x t' eq_refl) as [H1 H2].
        destruct x as [[] [] [] [] [] [] [] []]; try reflexivity; congruence.
      - destruct c as [[] [] [] [] [] [] [] []]; try reflexivity; congruence. }
    rewrite <- Hs, parseDigits_uint by now right. now rewrite Z.mul_1_l. }
  destruct d; try (now destruct Hne);
    cbn [NilEmpty.string_of_uint] in *;
    (apply Hgen; try reflexivity; try discriminate; intros Hc x t' Ht; try discriminate Hc).
  destruct d; cbn [NilEmpty.string_of_uint] in Ht;
    try discriminate; injection Ht as <- _; split; discriminate.
Qed.

(** A minus sign after leading zeros ends the number at zero. *)
Lemma parseInt_zeros_minus (n : nat) (rest : string) :
  Js.parseInt (zeros (S n) +:+ String "-" rest) = Js.Num 0.
Proof.
  assert (forall k seen, seen = true \/ (0 < k)%nat ->
          Js.parseDigits 10 0 seen (zeros k +:+ String "-" rest) = Some 0) as Hdigits.
  { induction k as [|k IH]; intros seen Hseen.
    - destruct Hseen as [-> | ?]; [reflexivity | lia].
    - cbn [zeros]. rewrite append_cons. cbn [Js.parseDigits].
      change (Js.digitValue "0") with (Some 0). cbv iota.
      change (0 <? 10) with true. cbv iota. apply IH. now left. }
  unfold Js.parseInt. cbn [zeros]. rewrite append_cons. cbn [Js.trimStart].
  change (Js.isWhiteSpace "0") with false. cbv iota.
  destruct n as [|n]; cbn [zeros]; rewrite ?append_cons, ?append_nil; cbv iota beta.
  - rewrite <- (append_nil (String "-" rest)), <- append_cons.
    change (String "0" "") with (zeros 1). now rewrite Hdigits by (right; lia).
  - rewrite <- !append_cons. change (String "0" (String "0" (zeros n))) with (zeros (S (S n))).
    now rewrite Hdigits by (right; lia).
Qed.

(** What [parseInt] reads back from a printed integer with zeros in
    front: the integer itself, except that a negative one after at least
    one zero reads as 0. *)
Lemma parseInt_padded (n : nat) (z : Z) :
  Js.parseInt (zeros n +:+ Js.toString (Js.Num z))
  = Js.Num (if (z <? 0) && (0 <? Z.of_nat n) then 0 else z).
Proof.
  unfold Js.toString, NilZero.string_of_int, Z.to_int.
  destruct z as [|p|p].
  - change (NilZero.string_of_uint zero) with (NilEmpty.string_of_uint (D0 Nil)).
    rewrite <- string_of_zeroPadded, parseInt_uint.
    + now rewrite of_uint_zeroPadded.
    + destruct n; discriminate.
  - assert (Pos.to_uint p <> Nil) as Hne.
    { intros Hnil. pose proof (DecimalPos.Unsigned.of_to p) as Hof.
      rewrite Hnil in Hof. discriminate. }
    assert (NilZero.string_of_uint (Pos.to_uint p) = NilEmpty.string_of_uint (Pos.to_uint p))
      as -> by (destruct (Pos.to_uint p); [now destruct Hne | reflexivity..]).
    rewrite <- string_of_zeroPadded, parseInt_uint.
    + now rewrite of_uint_zeroPadded, DecimalPos.Unsigned.of_to.
    + destruct n; [exact Hne | discriminate].
  - assert (Pos.to_uint p <> Nil) as Hne.
    { intros Hnil. pose proof (DecimalPos.Unsigned.of_to p) as Hof.
      rewrite Hnil in Hof. discriminate. }
    assert (NilZero.string_of_uint (Pos.to_uint p) = NilEmpty.string_of_uint (Pos.to_uint p))
      as -> by (destruct (Pos.to_uint p); [now destruct Hne | reflexivity..]).
    destruct n as [|n].
    + rewrite append_nil. cbn [andb Z.ltb Z.compare Z.of_nat]. cbv iota.
      unfold Js.parseInt. cbn [Js.trimStart]. change (Js.isWhiteSpace "-") with false.
      cbv iota beta.
      assert (match NilEmpty.string_of_uint (Pos.to_uint p) with
              | String "0" (String "x" t0) => (16, t0)
              | String "0" (String "X" t0) => (16, t0)
              | _ => (10, NilEmpty.string_of_uint (Pos.to_uint p))
              end = (10, NilEmpty.string_of_uint (Pos.to_uint p))) as ->.
      { destruct (Pos.to_uint p) as [|d|d|d|d|d|d|d|d|d|d]; try reflexivity.
        destruct d; reflexivity. }
      rewrite parseDigits_uint by now right.
      rewrite DecimalPos.Unsigned.of_to. reflexivity.
    + rewrite parseInt_zeros_minus. reflexivity.
Qed.

End Numerals.

(** ** More on the editor *)

Section NextIdFresh.

Implicit Types (pg : page).

Lemma strSlice_two (a b : ascii) (rest : string) :
  Js.strSlice 2 (String a (String b rest)) = rest.
Proof.
  unfold Js.strSlice. cbn [String.length].
  change (2 <? 0) with false. cbv iota.
  replace (Z.to_nat (Z.min 2 (Z.of_nat (S (S (String.length rest)))))) with 2%nat by lia.
  reflexivity.
Qed.

(** The shape of the next identifier on a catalog that is not empty. *)
Lemma getNextId_shape pg :
  products (st pg) <> [] ->
  (forall p, In p (products (st pg)) -> suffixOf pg p <> Js.NaN) ->
  exists m : Z,
    (forall p n, In p (products (st pg)) -> suffixOf pg p = Js.Num n -> n <= m) /\
    getNextId pg
    = "AP" +:+ zeros (5 - String.length (Js.toString (Js.Num (1 + m))))
           +:+ Js.toString (Js.Num (1 + m)).
Proof.
  intros Hsome Hnum. unfold getNextId.
  destruct (all_numbers (suffixOf pg) _ Hnum) as [zs Hzs].
  change (map (fun p => Js.parseInt (Js.strSlice 2 (id (deref pg p)))) (products (st pg)))
    with (map (suffixOf pg) (products (st pg))).
  change (fun a b : Js.number => Js.sub b a) with descending.
  rewrite Hzs. destruct zs as [|z zs].
  { destruct (products (st pg)); [now destruct Hsome | discriminate]. }
  destruct (sort_descending_head z zs) as (m & rest & -> & _ & Hmax).
  exists m. split.
  - intros p n Hp Hn. apply Hmax.
    assert (In (Js.Num n) (map Js.Num (z :: zs))) as Hm
      by (rewrite <- Hzs, <- Hn; now apply in_map).
    apply in_map_iff in Hm. destruct Hm as (n' & [= ->] & Hin'). exact Hin'.
  - cbn [Js.add]. rewrite (Z.add_comm m 1).
    change 5 with (Z.of_nat 5). now rewrite padStart_zeros.
Qed.

Lemma getNextId_not_in_catalog pg :
  (forall p, In p (products (st pg)) -> suffixOf pg p <> Js.NaN) ->
  forall p, In p (products (st pg)) -> id (deref pg p) <> getNextId pg.
Proof.
  intros Hnum p Hp Heq.
  assert (products (st pg) <> []) as Hsome by (intros Hnil; now rewrite Hnil in Hp).
  destruct (getNextId_shape pg Hsome Hnum) as (m & Hmax & Hshape).
  pose proof (Hnum p Hp) as Hparse. unfold suffixOf in Hparse, Hmax.
  clear Hparse.
  assert (Js.parseInt (Js.strSlice 2 (id (deref pg p)))
          = Js.Num (if (1 + m <? 0)
                       && (0 <? Z.of_nat (5 - String.length (Js.toString (Js.Num (1 + m)))))
                    then 0 else 1 + m)) as Hval.
  { rewrite Heq, Hshape, !append_cons, append_nil, strSlice_two. apply parseInt_padded. }
  specialize (Hmax p _ Hp Hval).
  destruct ((1 + m <? 0) && _) eqn:Hcase; [|lia].
  apply andb_true_iff in Hcase. destruct Hcase as [Hneg _]. apply Z.ltb_lt in Hneg. lia.
Qed.

(** X13.  A fresh identifier.  When every identifier of the catalog has an
    integer after its first two characters, within the range in which
    the script's arithmetic is exact, the identifier that [getNextId]
    returns is carried by no product of the catalog. *)
Theorem getNextId_fresh (pg : page) :
  (forall p, In p (products (st pg)) -> suffixOf pg p <> Js.NaN) ->
  exactSuffixes pg ->
  ~ In (getNextId pg) (catalogIds pg).
Proof.
  intros Hnum _ Hin. unfold catalogIds in Hin. apply in_map_iff in Hin.
  destruct Hin as (p & Hid & Hp). exact (getNextId_not_in_catalog pg Hnum p Hp Hid).
Qed.

End NextIdFresh.

Section Adding.

Implicit Types (pg : page).

Lemma updateView_productImage pg :
  productImage (els (updateView pg)) = productImage (els pg).
Proof.
  unfold updateView, updateFilterInfo, render, renderProducts, showNoProducts.
  now destruct (_ =? 0).
Qed.

Lemma finishSubmit_convertedImages (id' name' species' : string) (price' : Js.float)
    (available' : bool) (image' createdAt : string) pg :
  convertedImages
    (st (finishSubmit id' name' species' price' available' image' createdAt pg))
  = convertedImages (st pg).
Proof.
  unfold finishSubmit. destruct (editingProduct (st pg)); cbv beta iota zeta;
    now rewrite closeModal_st, updateView_st.
Qed.

Lemma finishSubmit_productImage (id' name' species' : string) (price' : Js.float)
    (available' : bool) (image' createdAt : string) pg :
  productImage
    (els (finishSubmit id' name' species' price' available' image' createdAt pg))
  = productImage (els pg).
Proof.
  unfold finishSubmit. destruct (editingProduct (st pg)); cbv beta iota zeta;
    unfold closeModal; cbn [els Upd.elements_of Upd.modals_ productImage];
    now rewrite updateView_productImage.
Qed.

Lemma updateView_awaiting pg : awaiting (updateView pg) = awaiting pg.
Proof.
  unfold updateView, updateFilterInfo, render, renderProducts, showNoProducts.
  now destruct (_ =? 0).
Qed.

Lemma finishSubmit_awaiting (id' name' species' : string) (price' : Js.float)
    (available' : bool) (image' createdAt : string) pg :
  awaiting (finishSubmit id' name' species' price' available' image' createdAt pg)
  = awaiting pg.
Proof.
  unfold finishSubmit. destruct (editingProduct (st pg)); cbv beta iota zeta;
    unfold closeModal; cbn [awaiting Upd.elements_of];
    now rewrite updateView_awaiting.
Qed.

Lemma deref_old_after_add (now : string) pg (q : loc) :
  editingProduct (st pg) = None -> productImage (els pg) = None ->
  (q < length (heap pg))%nat ->
  deref (onsubmit now pg) q = deref pg q.
Proof.
  intros Hedit Hfile Hq. unfold deref.
  destruct (onsubmit_add_no_file now pg Hedit Hfile) as [-> _].
  now apply lookup_total_app_l.
Qed.

(** X14.  Adding.  A submit in add mode with no file chosen puts one new
    object in front of the catalog: it is none of the objects the catalog
    held, it carries the form's identifier, trimmed name and species, and
    the submit time, and every product the catalog held reads as
    before. *)
Theorem add_puts_new_record_first (now : string) (pg : page) :
  editingProduct (st pg) = None ->
  productImage (els pg) = None ->
  liveCatalog pg ->
  let pg' := onsubmit now pg in
  exists p : loc,
    products (st pg') = p :: products (st pg) /\
    ~ In p (products (st pg)) /\
    id (deref pg' p) = productId (els pg) /\
    name (deref pg' p) = Js.trim (productName (els pg)) /\
    species (deref pg' p) = Js.trim (productSpecies (els pg)) /\
    created_at (deref pg' p) = now /\
    (forall q, In q (products (st pg)) -> deref pg' q = deref pg q) /\
    liveCatalog pg'.
Proof.
  intros Hedit Hfile Hlive pg'. subst pg'.
  destruct (onsubmit_add_no_file now pg Hedit Hfile) as [Hheap Hprod].
  exists (length (heap pg)).
  assert (deref (onsubmit now pg) (length (heap pg))
          = Product (productId (els pg)) (Js.trim (productName (els pg)))
              (Js.trim (productSpecies (els pg))) (productPrice (els pg))
              (productAvailable (els pg)) (Some "") now) as Hnew
    by (unfold deref; rewrite Hheap; now apply list_lookup_total_middle).
  split; [exact Hprod|]. split; [intros Hin; apply Hlive in Hin; lia|].
  rewrite Hnew. do 4 (split; [reflexivity|]). split.
  - intros q Hq. apply deref_old_after_add; [exact Hedit | exact Hfile | now apply Hlive].
  - intros q. rewrite Hprod, Hheap, length_app. cbn [length].
    intros [<- | Hq]; [lia | apply Hlive in Hq; lia].
Qed.

(** X15.  Opening the add form and submitting it.  When the catalog's
    references are live and every identifier has an integer after its
    first two characters, within the range in which the script's
    arithmetic is exact, the catalog's identifiers afterwards are the
    next identifier followed by the old ones; if the old ones were
    distinct, so are the new ones. *)
Theorem add_keeps_ids_distinct (now : string) (pg : page) :
  liveCatalog pg ->
  (forall p, In p (products (st pg)) -> suffixOf pg p <> Js.NaN) ->
  exactSuffixes pg ->
  let pg' := onsubmit now (openAddModal pg) in
  catalogIds pg' = getNextId pg :: catalogIds pg /\
  (List.NoDup (catalogIds pg) -> List.NoDup (catalogIds pg')).
Proof.
  intros Hlive Hnum _ pg'.
  assert (catalogIds pg' = getNextId pg :: catalogIds pg) as Hids.
  { subst pg'. unfold catalogIds.
    destruct (onsubmit_add_no_file now (openAddModal pg) eq_refl eq_refl) as [Hheap Hprod].
    rewrite Hprod. cbn [map]. f_equal.
    - unfold deref. rewrite Hheap. now rewrite list_lookup_total_middle.
    - apply map_ext_in. intros q Hq. f_equal.
      apply (deref_old_after_add now (openAddModal pg) q eq_refl eq_refl). now apply Hlive. }
  split; [exact Hids|]. intros Hnd. rewrite Hids. constructor; [|exact Hnd].
  intros Hin. unfold catalogIds in Hin. apply in_map_iff in Hin.
  destruct Hin as (p & Hid & Hp). exact (getNextId_not_in_catalog pg Hnum p Hp Hid).
Qed.

(** X16.  The chosen file.  A submit with a file chosen writes nothing
    before the file is re-encoded: the handler waits, holding the values
    of the form and the name built from the form's identifier and name.
    When the re-encoding of a waiting handler ends, the blob (the
    re-encoded file, or null) is stored under the name the handler holds,
    no other stored image changes, the handler waits no longer and the
    file stays in the file input. *)
Theorem submit_stores_chosen_file :
  (forall (now file : string) (pg : page),
      productImage (els pg) = Some file ->
      let pg' := onsubmit now pg in
      heap pg' = heap pg /\ st pg' = st pg /\ els pg' = els pg /\
      exists createdAt : string,
        awaiting pg'
        = awaiting pg ++
          [Submission (productId (els pg)) (Js.trim (productName (els pg)))
             (Js.trim (productSpecies (els pg))) (productPrice (els pg))
             (productAvailable (els pg)) file createdAt (formImageName pg)]) /\
  (forall (k : nat) (encoded : bool) (sub : submission) (pg pg' : page),
      awaiting pg !! k = Some sub ->
      onEncoded k encoded pg = Some pg' ->
      convertedImages (st pg') !! sub_imageFileName sub
      = Some (if encoded then WebP (sub_file sub) else Null) /\
      (forall other, other <> sub_imageFileName sub ->
         convertedImages (st pg') !! other = convertedImages (st pg) !! other) /\
      awaiting pg' = delete k (awaiting pg) /\
      productImage (els pg') = productImage (els pg)).
Proof.
  split.
  - intros now file pg Hfile pg'. subst pg'. unfold onsubmit. rewrite Hfile.
    cbv beta iota zeta. do 3 (split; [reflexivity|]). eexists. reflexivity.
  - intros k encoded sub pg pg' Hsub. unfold onEncoded. rewrite Hsub.
    intros [= <-]. rewrite finishSubmit_convertedImages, finishSubmit_productImage.
    cbn [st convertImageToWebP Upd.state_of Upd.convertedImages_ convertedImages
         Upd.awaiting_ els].
    split; [apply lookup_insert_eq|]. split; [intros other Hother; now apply lookup_insert_ne|].
    split; [|reflexivity]. now rewrite finishSubmit_awaiting.
Qed.

(** X17.  A file left in the input.  [openEditModal] does not clear the file
    input (only [openAddModal] resets the form), so submitting the edit
    form of a product while a file is still chosen makes the handler
    wait for that file; if the re-encoding then ends with no event in
    between, the product gets the name built from its own identifier
    and name as [image], and the blob is stored under that name. *)
Theorem edit_reuses_leftover_file (now file : string) (encoded : bool)
    (pg : page) (p : loc) :
  productImage (els pg) = Some file ->
  (p < length (heap pg))%nat ->
  let opened := openEditModal p pg in
  let waiting := onsubmit now opened in
  let stored :=
    id (deref pg p) +:+ "_" +:+
    Js.replaceSpaceRuns "_" false (Js.toLowerCase (Js.trim (name (deref pg p)))) +:+
    ".webp" in
  productImage (els opened) = Some file /\
  productImage (els (openAddModal pg)) = None /\
  deref waiting p = deref pg p /\
  exists pg' : page,
    onEncoded (length (awaiting pg)) encoded waiting = Some pg' /\
    image (deref pg' p) = Some stored /\
    convertedImages (st pg') !! stored = Some (if encoded then WebP file else Null).
Proof.
  intros Hfile Hlive opened waiting stored.
  assert (productImage (els opened) = Some file) as Hopened by exact Hfile.
  split; [exact Hopened|]. split; [reflexivity|].
  assert (waiting
          = Upd.awaiting_
              (awaiting pg ++
               [Submission (id (deref pg p)) (Js.trim (name (deref pg p)))
                  (Js.trim (species (deref pg p))) (price (deref pg p))
                  (available (deref pg p)) file (created_at (deref pg p)) stored])
              opened) as Hwait.
  { subst waiting. unfold onsubmit. rewrite Hopened. reflexivity. }
  split; [now rewrite Hwait|].
  unfold onEncoded. rewrite Hwait.
  cbn [awaiting Upd.awaiting_]. change (awaiting opened) with (awaiting pg).
  rewrite list_lookup_middle by reflexivity.
  eexists. split; [reflexivity|].
  cbn [sub_id sub_name sub_species sub_price sub_available sub_file sub_createdAt
       sub_imageFileName].
  split.
  - unfold finishSubmit.
    change (editingProduct (st (convertImageToWebP _ _ _))) with (Some p).
    cbv beta iota zeta. unfold deref.
    rewrite closeModal_heap, updateView_heap.
    cbn [heap Upd.heap_of Upd.state_of convertImageToWebP Upd.awaiting_].
    change (heap opened) with (heap pg).
    now rewrite list_lookup_total_insert_eq.
  - rewrite finishSubmit_convertedImages.
    cbn [st convertImageToWebP Upd.state_of Upd.convertedImages_ convertedImages].
    apply lookup_insert_eq.
Qed.

End Adding.

Section Deleting.

Implicit Types (pg : page).


End Deleting.

Section FailedLoad.

Implicit Types (pg : page).

Lemma updateView_nothing_shown pg :
  shown pg = [] ->
  queryExceptionContainer (els (updateView pg))
  = Shown "Plant not found" "Try other keyword or show sold out items.".
Proof.
  intros Hnone. destruct (updateView_listing pg) as [_ ->]. rewrite Hnone.
  unfold getPaginatedProducts, Js.slice. cbn [length]. now rewrite drop_nil, take_nil.
Qed.

(** X2.  A failed load.  When the request or the parse fails, [init] leaves
    the catalog and the cart empty, [isLoading] off and the error panel
    up, and does not touch the arrows; on every page reached from there
    the catalog and the cart are still empty, and any change of the
    keyword, once the debounced listener has run, replaces the panel by
    "Plant not found". *)
Theorem failed_load_lists_nothing (dateOf : string -> Js.number) (html : elements) :
  let failed := init dateOf None html in
  (queryExceptionContainer (els failed)
   = Shown "Failed to load products" "Please refresh or try again later" /\
   isLoading (st failed) = false /\
   prevBtn (els failed) = prevBtn html /\ nextBtn (els failed) = nextBtn html) /\
  (forall pg,
      reachable step failed pg ->
      products (st pg) = [] /\ cart (st pg) = [] /\
      forall value,
        queryExceptionContainer (els (onSearchInput (onSearchKey value pg)))
        = Shown "Plant not found" "Try other keyword or show sold out items.").
Proof.
  intros failed. split; [now repeat split|].
  intros pg Hreach.
  assert (products (st pg) = [] /\ cart (st pg) = []) as [Hnone Hcart].
  { induction Hreach as [|pg pg' _ [IHp IHc] Hstep]; [now split|].
    destruct (step_keeps_catalog pg pg' Hstep) as (_ & Hp & _). split; [congruence|].
    destruct Hstep
      as [value pg | pg _ | checked pg | pg _ | pg _ | i pg _ | c dataId checked pg _ _];
      try (unfold onSearchKey, onSearchInput, onShowSoldOutChange, onPrevClick, onNextClick,
             onPageClick;
           now rewrite ?updateView_st).
    rewrite toggleCartItem_cart, IHp. exact IHc. }
  split; [exact Hnone | split; [exact Hcart|]].
  intros value. unfold onSearchInput. apply updateView_nothing_shown, shown_empty. exact Hnone.
Qed.

End FailedLoad.

Section FilterLine.

Implicit Types (pg : page).








End FilterLine.

Section Stranded.

Implicit Types (pg : page).

Lemma closeModal_listing pg :
  productsContainer (els (closeModal pg)) = productsContainer (els pg) /\
  queryExceptionContainer (els (closeModal pg)) = queryExceptionContainer (els pg) /\
  prevBtn (els (closeModal pg)) = prevBtn (els pg) /\
  nextBtn (els (closeModal pg)) = nextBtn (els pg) /\
  searchInput (els (closeModal pg)) = searchInput (els pg) /\
  showSoldOutCheckbox (els (closeModal pg)) = showSoldOutCheckbox (els pg).
Proof. now repeat split. Qed.

(** X20.  Deleting does not go back a page.  The delete handler leaves
    [currentPage] as it is; when that leaves it past the last page, the
    list area is drawn empty with the "Plant not found" panel, whether
    or not products are listed on earlier pages, and with at least one
    page left both arrows are enabled. *)
Theorem delete_can_strand_current_page (pg pg' : page) :
  confirmDeleteClick pg = Some pg' ->
  1 <= currentPage (st pg) ->
  totalPagesOf pg' < currentPage (st pg) ->
  currentPage (st pg') = currentPage (st pg) /\
  productsContainer (els pg') = [] /\
  queryExceptionContainer (els pg')
  = Shown "Plant not found" "Try other keyword or show sold out items." /\
  (1 <= totalPagesOf pg' -> prevBtn (els pg') = false /\ nextBtn (els pg') = false).
Proof.
  unfold confirmDeleteClick. destruct (deleteTarget (st pg)) as [t|]; [|discriminate].
  intros [= <-] Hcur.
  set (pg2 := Upd.state_of _ (Upd.state_of _ pg)).
  assert (currentPage (st pg2) = currentPage (st pg)) as Hsame by reflexivity.
  destruct (closeModal_listing (updateView pg2)) as (Hcards & Hpanel & Hprev & Hnext & Hin & Hbox).
  assert (totalPagesOf (closeModal (updateView pg2)) = totalPagesOf pg2) as Htotal.
  { unfold totalPagesOf.
    rewrite (shown_ext (updateView pg2) (closeModal (updateView pg2))
               eq_refl eq_refl eq_refl eq_refl).
    now rewrite shown_updateView. }
  rewrite Htotal, Hcards, Hpanel, Hprev, Hnext, closeModal_st, updateView_st,
    updateView_prevBtn, updateView_nextBtn, Hsame.
  intros Hpast.
  assert (getPaginatedProducts (shown pg2) pg2 = []) as Hempty.
  { apply length_zero_iff_nil.
    pose proof (getPaginatedProducts_size (shown pg2) pg2 ltac:(lia)) as Hsize.
    pose proof (getTotalPages_ceiling (Z.of_nat (length (shown pg2)))) as Hceil.
    unfold ITEMS_PER_PAGE in Hceil. unfold totalPagesOf in Hpast. lia. }
  destruct (updateView_listing pg2) as [Hsrc Hshown]. rewrite Hempty in Hsrc, Hshown.
  split; [reflexivity|]. split; [now apply map_eq_nil in Hsrc|]. split; [exact Hshown|].
  intros Hone. split.
  - apply Z.eqb_neq. lia.
  - apply orb_false_iff. split; apply Z.eqb_neq; lia.
Qed.

End Stranded.

Section EditRoundTrip.

Implicit Types (pg : page).

(** X18.  Opening the edit form and submitting it untouched.  With no file in
    the file input, the record is written back with the same identifier,
    price, availability and creation time; its name and species come
    back trimmed and a missing image comes back as the empty string; no
    other object changes. *)
Theorem edit_untouched_form (now : string) (pg : page) (p : loc) :
  productImage (els pg) = None ->
  (p < length (heap pg))%nat ->
  let r := deref pg p in
  let pg' := onsubmit now (openEditModal p pg) in
  deref pg' p
  = Product (id r) (Js.trim (name r)) (Js.trim (species r)) (price r) (available r)
      (Some (default "" (image r))) (created_at r) /\
  (forall q, q <> p -> deref pg' q = deref pg q).
Proof.
  intros Hfile Hlive r pg'. subst pg'.
  assert (heap (onsubmit now (openEditModal p pg))
          = <[p := Product (id r) (Js.trim (name r)) (Js.trim (species r)) (price r)
                     (available r) (Some (default "" (image r))) (created_at r)]> (heap pg))
    as Hexact.
  { unfold onsubmit, finishSubmit.
    change (editingProduct (st (openEditModal p pg))) with (Some p).
    change (productImage (els (openEditModal p pg))) with (productImage (els pg)).
    rewrite Hfile. cbv beta iota zeta. rewrite closeModal_heap, updateView_heap.
    cbn [heap Upd.heap_of]. change (heap (openEditModal p pg)) with (heap pg).
    f_equal. unfold assign. fold (deref pg p). fold r.
    change (deref (openEditModal p pg) p) with r.
    cbn [productName productSpecies productPrice productAvailable els openEditModal
           Upd.elements_of Upd.form_ Upd.modals_].
    f_equal. f_equal. now destruct (image r) as [[|c f]|]. }
  unfold deref. rewrite Hexact. split.
  - now apply list_lookup_total_insert_eq.
  - intros q Hq. now apply list_lookup_total_insert_ne.
Qed.

End EditRoundTrip.

(** ** What an edit writes *)

Section EditFrame.

Implicit Types (pg : page) (p q : loc).

Lemma finishSubmit_keeps (id' name' species' : string) (price' : Js.float)
    (available' : bool) (image' createdAt : string) pg q :
  (q < length (heap pg))%nat ->
  let pg' := finishSubmit id' name' species' price' available' image' createdAt pg in
  (q < length (heap pg'))%nat /\
  id (deref pg' q) = id (deref pg q) /\
  created_at (deref pg' q) = created_at (deref pg q).
Proof.
  intros Hq pg'. subst pg'. unfold finishSubmit, deref.
  destruct (editingProduct (st pg)) as [p|]; cbv beta iota zeta;
    rewrite closeModal_heap, updateView_heap; cbn [heap Upd.heap_of Upd.state_of].
  - rewrite length_insert. split; [exact Hq|].
    destruct (decide (q = p)) as [-> | Hne].
    + now rewrite list_lookup_total_insert_eq.
    + now rewrite list_lookup_total_insert_ne.
  - rewrite length_app. split; [lia|]. now rewrite lookup_total_app_l.
Qed.

(** X21.  An edit with no file chosen.  Submitting the form while a product
    is being edited and the file input is empty leaves the catalog list,
    the product's [id] and [created_at] and every other record as they
    were; [name], [species], [price] and [available] of the edited
    record take the values of the form, and its [image] stays (the empty
    string when it had none). *)
Theorem edit_without_file_frame (now : string) (pg : page) (p : loc) :
  editingProduct (st pg) = Some p ->
  productImage (els pg) = None ->
  let pg' := onsubmit now pg in
  products (st pg') = products (st pg) /\
  id (deref pg' p) = id (deref pg p) /\
  created_at (deref pg' p) = created_at (deref pg p) /\
  (forall q, q <> p -> deref pg' q = deref pg q) /\
  ((p < length (heap pg))%nat ->
     name (deref pg' p) = Js.trim (productName (els pg)) /\
     species (deref pg' p) = Js.trim (productSpecies (els pg)) /\
     price (deref pg' p) = productPrice (els pg) /\
     available (deref pg' p) = productAvailable (els pg) /\
     image (deref pg' p) = Some (default "" (image (deref pg p)))).
Proof.
  intros Hedit Hfile pg'. subst pg'.
  assert (heap (onsubmit now pg)
          = <[p := assign (heap pg !!! p) (Js.trim (productName (els pg)))
                    (Js.trim (productSpecies (els pg))) (productPrice (els pg))
                    (productAvailable (els pg)) (default "" (image (deref pg p)))]> (heap pg)
          /\ products (st (onsubmit now pg)) = products (st pg)) as [Hheap Hprod].
  { unfold onsubmit. rewrite Hedit, Hfile. cbv beta iota zeta.
    replace (match image (deref pg p) with
             | Some (String c f) => String c f
             | _ => ""
             end) with (default "" (image (deref pg p)))
      by now destruct (image (deref pg p)) as [[|c f]|].
    now apply finishSubmit_edit. }
  assert (forall q, deref (onsubmit now pg) q
                    = <[p := assign (heap pg !!! p) (Js.trim (productName (els pg)))
                              (Js.trim (productSpecies (els pg))) (productPrice (els pg))
                              (productAvailable (els pg))
                              (default "" (image (deref pg p)))]> (heap pg) !!! q) as Hd
    by (intros q; unfold deref at 1; now rewrite Hheap).
  split; [exact Hprod|]. rewrite !Hd, list_lookup_total_insert.
  split; [unfold deref; now case_decide|].
  split; [unfold deref; now case_decide|].
  split; [intros q Hq; rewrite Hd; unfold deref; now rewrite list_lookup_total_insert_ne|].
  intros Hlive. rewrite decide_True by tauto. now repeat split.
Qed.

(** X22.  Identifier and creation time.  No event of the editor, the end of
    a re-encoding included, removes an object from the store or changes
    the [id] or the [created_at] of an object that is in it. *)
Theorem editor_keeps_id_and_created_at (pg pg' : page) (q : loc) :
  adminStep pg pg' ->
  (q < length (heap pg))%nat ->
  (q < length (heap pg'))%nat /\
  id (deref pg' q) = id (deref pg q) /\
  created_at (deref pg' q) = created_at (deref pg q).
Proof.
  intros Hstep Hq.
  destruct Hstep as
    [value pg | pg _ | checked pg | pg _ | pg _ | i pg _ | pg | c pg _ | c pg _
    | i n s p a f pg | now pg | k encoded pg pg' Hend | pg pg' Hdel | pg];
    try (unfold onSearchKey, onSearchInput, onShowSoldOutChange, onPrevClick, onNextClick,
           onPageClick, deref;
         rewrite ?updateView_heap; now repeat split).
  - unfold onsubmit. destruct (productImage (els pg)); cbv beta iota zeta;
      [now repeat split | now apply finishSubmit_keeps].
  - unfold onEncoded in Hend. destruct (awaiting pg !! k) as [sub|]; [|discriminate].
    injection Hend as <-.
    exact (finishSubmit_keeps _ _ _ _ _ _ _
             (convertImageToWebP _ _ (Upd.awaiting_ (delete k (awaiting pg)) pg)) q Hq).
  - unfold confirmDeleteClick in Hdel. destruct (deleteTarget (st pg)); [|discriminate].
    injection Hdel as <-. unfold deref. rewrite closeModal_heap, updateView_heap.
    now repeat split.
Qed.

End EditFrame.

(** ** Worked instances of the further properties *)

Section MoreInstances.

(** Page 2 of the five listed products holds the fifth one alone. *)
Lemma getPaginatedProducts_length_witness :
  Z.of_nat (length (getPaginatedProducts (shown shop) (onNextClick shop))) = 1.
Proof.
  destruct (getPaginatedProducts_length (shown shop) (onNextClick shop)) as (_ & Hvalid & _).
  destruct Hvalid as [Hsize _]; [vm_compute; intuition discriminate | exact Hsize].
Defined.

Lemma render_page_buttons_witness :
  exists first : Z,
    pageNumbersContainer (els (render 5 shop)) = seqZ first 2 /\ 1 <= first /\ first + 2 <= 3.
Proof. apply (render_page_buttons 5 shop). lia. Defined.

Lemma toggleCartItem_other_entries_witness :
  List.filter (fun item => String.eqb (id item) "AP00001")
    (cart (st (toggleCartItem "AP00002" true Sample.doubled)))
  = cart (st Sample.doubled).
Proof.
  apply (toggleCartItem_other_entries "AP00002" "AP00001" true Sample.doubled). discriminate.
Defined.

Lemma toggleCartItem_on_off_witness :
  exists (p : loc) (before after : list loc),
    products (st shop) = before ++ p :: after /\
    (forall q, In q before -> id (deref shop q) <> "AP00002") /\
    id (deref shop p) = "AP00002" /\
    cart (st (toggleCartItem "AP00002" true shop)) = cart (st shop) ++ [deref shop p] /\
    cart (st (toggleCartItem "AP00002" false (toggleCartItem "AP00002" true shop)))
    = cart (st shop).
Proof.
  apply (toggleCartItem_on_off "AP00002" shop).
  - exists 1%nat. split; [vm_compute; tauto | reflexivity].
  - reflexivity.
Defined.

(** "Nana" in lower case contains "an". *)
Lemma getFilteredProducts_narrows_witness :
  sublist (getFilteredProducts "Nana" false shop) (getFilteredProducts "an" false shop).
Proof.
  apply (proj2 getFilteredProducts_narrows "an" "Nana" false shop).
  exists "n", "a". reflexivity.
Defined.

(** The six sample products all have valid dates. *)
Lemma initialize_newest_first_witness :
  StronglySorted (newerOrSame Sample.dateOf editor) (products (st editor)).
Proof.
  apply (proj2 (proj2 (initialize_newest_first Sample.dateOf Sample.two
                         (Page [] state0
                            (Upd.searchInput_ ""
                               (Upd.showSoldOutCheckbox_ false Sample.blank))
                            false [])))).
  intros r Hr. vm_compute in Hr.
  repeat (destruct Hr as [<- | Hr]; [vm_compute; discriminate|]). destruct Hr.
Defined.

Lemma cart_summary_agrees_witness :
  cartCount (els (onNextClick shop)) = 0 /\
  (whatsappBtn (els (onNextClick shop)) = true <-> cart (st (onNextClick shop)) = []).
Proof.
  destruct (cart_summary_agrees Sample.dateOf (Some Sample.six) Sample.blank (onNextClick shop))
    as (Hcount & _ & Hbutton).
  - eapply reach_step; [apply reach_start | apply step_next; reflexivity].
  - split; [exact Hcount | exact Hbutton].
Defined.

Lemma shop_keeps_catalog_witness :
  products (st (onNextClick shop)) = products (st shop).
Proof.
  apply (shop_keeps_catalog shop (onNextClick shop)).
  eapply reach_step; [apply reach_start | apply step_next; reflexivity].
Defined.


(** The box of the card of AP00002 is checked on the page the arrival
    of the catalog leaves. *)
Lemma cart_holds_catalog_copies_witness :
  exists p : loc,
    In p (products (st (toggleCartItem "AP00002" true arrived))) /\
    deref (toggleCartItem "AP00002" true arrived) p = deref arrived 1%nat.
Proof.
  apply (proj1 cart_holds_catalog_copies Sample.dateOf Sample.shipped
           (toggleCartItem "AP00002" true arrived)).
  - apply reach_step with (pg := arrived).
    + apply reach_step with (pg := boot Sample.shipped); [apply reach_start|].
      now apply event_loaded.
    + apply event_step.
      apply (step_checkbox (createProductCard 1%nat arrived) "AP00002" true arrived);
        [|reflexivity].
      vm_compute. right. right. right. left. reflexivity.
  - vm_compute. left. reflexivity.
Defined.

Lemma getNextId_fresh_witness : ~ In (getNextId editor) (catalogIds editor).
Proof.
  apply (getNextId_fresh editor).
  - intros p Hp. vm_compute in Hp.
    repeat (destruct Hp as [<- | Hp]; [vm_compute; discriminate|]). destruct Hp.
  - intros p n Hp. vm_compute in Hp.
    repeat (destruct Hp as [<- | Hp];
            [intros Hn; vm_compute in Hn; injection Hn as <-; reflexivity|]).
    destruct Hp.
Defined.

Lemma add_puts_new_record_first_witness :
  exists p : loc,
    products (st (onsubmit "7" (openAddModal editor))) = p :: products (st (openAddModal editor))
    /\ ~ In p (products (st (openAddModal editor))).
Proof.
  destruct (add_puts_new_record_first "7" (openAddModal editor) eq_refl eq_refl)
    as (p & Hp & Hnew & _).
  - intros q Hq. vm_compute in Hq.
    repeat (destruct Hq as [<- | Hq]; [vm_compute; lia|]). destruct Hq.
  - exists p. split; [exact Hp | exact Hnew].
Defined.

Lemma add_keeps_ids_distinct_witness :
  catalogIds (onsubmit "7" (openAddModal editor)) = ["AP00004"; "AP00003"; "AP00001"].
Proof.
  apply (add_keeps_ids_distinct "7" editor).
  - intros q Hq. vm_compute in Hq.
    repeat (destruct Hq as [<- | Hq]; [vm_compute; lia|]). destruct Hq.
  - intros p Hp. vm_compute in Hp.
    repeat (destruct Hp as [<- | Hp]; [vm_compute; discriminate|]). destruct Hp.
  - intros p n Hp. vm_compute in Hp.
    repeat (destruct Hp as [<- | Hp];
            [intros Hn; vm_compute in Hn; injection Hn as <-; reflexivity|]).
    destruct Hp.
Defined.

(** The run of spaces in "Java  Fern" becomes one underscore. *)
Lemma submit_stores_chosen_file_witness :
  convertedImages (st javaFernStored) !! "AP00004_java_fern.webp" = Some (WebP "RIFF").
Proof.
  apply (proj2 submit_stores_chosen_file 0%nat true
           (Submission "AP00004" "Java  Fern" "Microsorum" (Js.Fin 9) true "RIFF" "7"
              "AP00004_java_fern.webp")
           javaFernWaiting javaFernStored); reflexivity.
Defined.

(** The file is still in the input when the edit form of AP00001 is
    opened and submitted. *)
Lemma edit_reuses_leftover_file_witness :
  exists pg' : page,
    onEncoded (length (awaiting javaFernStored)) true
      (onsubmit "8" (openEditModal 0%nat javaFernStored)) = Some pg' /\
    image (deref pg' 0%nat) = Some "AP00001_nana.webp" /\
    convertedImages (st pg') !! "AP00001_nana.webp" = Some (WebP "RIFF").
Proof.
  apply (edit_reuses_leftover_file "8" "RIFF" true javaFernStored 0%nat).
  - reflexivity.
  - apply Nat.ltb_lt. reflexivity.
Defined.


Lemma failed_load_lists_nothing_witness :
  products (st (onSearchInput (onSearchKey "nana" (init Sample.dateOf None Sample.blank))))
  = [].
Proof.
  apply (proj2 (failed_load_lists_nothing Sample.dateOf Sample.blank)).
  eapply reach_step; [|now apply step_timeout].
  eapply reach_step; [apply reach_start | apply step_key].
Defined.


(** After the deletion four products are listed, on one page, and the
    editor still stands on page 2. *)
Lemma delete_can_strand_current_page_witness :
  length (shown afterLastPageDelete) = 4%nat /\
  productsContainer (els afterLastPageDelete) = [] /\
  queryExceptionContainer (els afterLastPageDelete)
  = Shown "Plant not found" "Try other keyword or show sold out items.".
Proof.
  split; [reflexivity|].
  assert (confirmDeleteClick lastPageDelete = Some afterLastPageDelete) as Hdel by reflexivity.
  destruct (delete_can_strand_current_page lastPageDelete afterLastPageDelete Hdel)
    as (_ & Hcards & Hpanel & _).
  - apply Z.leb_le. reflexivity.
  - apply Z.ltb_lt. reflexivity.
  - split; [exact Hcards | exact Hpanel].
Defined.

Lemma edit_untouched_form_witness :
  image (deref (onsubmit "7" (openEditModal 0%nat editor)) 0%nat) = Some "".
Proof.
  destruct (edit_untouched_form "7" editor 0%nat eq_refl) as [Hrecord _].
  - apply Nat.ltb_lt. reflexivity.
  - now rewrite Hrecord.
Defined.

Lemma edit_without_file_frame_witness :
  name (deref (onsubmit "7" (openEditModal 0%nat editor)) 0%nat) = "Nana" /\
  created_at (deref (onsubmit "7" (openEditModal 0%nat editor)) 0%nat) = "1".
Proof.
  destruct (edit_without_file_frame "7" (openEditModal 0%nat editor) 0%nat eq_refl eq_refl)
    as (_ & _ & Hcreated & _ & Hfields).
  destruct Hfields as (Hname & _); [apply Nat.ltb_lt; reflexivity|].
  split; [exact Hname | exact Hcreated].
Defined.

(** The re-encoding that overwrites "AP00004" leaves its identifier. *)
Lemma editor_keeps_id_and_created_at_witness :
  id (deref goldenOverwritten 3%nat) = "AP00004".
Proof.
  apply (editor_keeps_id_and_created_at goldenOpened goldenOverwritten 3%nat).
  - now apply (admin_encoded 0 true).
  - apply Nat.ltb_lt. reflexivity.
Defined.

End MoreInstances.
